(** * TrialGuard admission engine: a shallow embedding of [app.py]

    The engine classes of [app.py] ([TrialUser], [TenantConfig],
    [ResourceMonitor], [TrialGuardEngine]) are embedded as records and
    functions.  Python floats are binary64 primitive floats, Python ints
    are [Z], dictionaries are [gmap]s keyed by strings, and the two
    ambient effects of the program, [time.time()] and the [random]
    module, are explicit oracles threaded through a small state and
    exception monad. *)

From Stdlib Require Import ZArith Floats DecimalString.
From stdpp Require Import gmap strings list.

Set Warnings "-inexact-float,-clear-no-such-hyp".

(** ** Python primitives on floats *)

Module Py.

(** [a > b], [a >= b] and [a < b] on floats are the IEEE comparisons:
    all of them are [False] when an operand is a NaN. *)
Definition gt (a b : float) : bool := (b <? a)%float.
Definition ge (a b : float) : bool := (b <=? a)%float.
Definition lt (a b : float) : bool := (a <? b)%float.

(** The builtins [max(a, b)] and [min(a, b)] keep their first argument
    unless the second one is strictly greater (resp. smaller). *)
Definition max (a b : float) : float := if gt b a then b else a.
Definition min (a b : float) : float := if lt b a then b else a.

(** Conversion of an [int] to a [float], as done by [int / float]:
    the nearest binary64, ties to even.  (CPython raises
    [OverflowError] beyond the binary64 range, where this conversion
    yields an infinity; no counter of the engine gets there.) *)
Definition float_of_int (z : Z) : float :=
  SF2Prim (binary_normalize prec emax z 0 false).

(** Truth value of an optional string: [None] and [""] are falsy. *)
Definition truthy (o : option string) : bool :=
  match o with
  | Some s => bool_decide (s ≠ "")
  | None => false
  end.

(** [l[-k:]]: the last [k] elements, the whole list when it is shorter. *)
Definition last_slice {A} (k : nat) (l : list A) : list A :=
  drop (length l - k) l.

(** [l.pop(0)] on a non-empty list (the popped value is not used). *)
Definition pop0 {A} (l : list A) : list A := tail l.

(** [l[-1] += x] on a list of floats; guarded by the caller so that the
    list is not empty. *)
Definition add_to_last (x : float) (l : list float) : list float :=
  match last l with
  | Some d => <[length l - 1 := (d + x)%float]> l
  | None => l
  end.

End Py.

(** ** Decisions *)

Inductive DecisionKind : Set :=
| DECISION_ALLOW
| DECISION_THROTTLE
| DECISION_BLOCK
| DECISION_FLAG_SALES.

Definition decision_name (d : DecisionKind) : string :=
  match d with
  | DECISION_ALLOW => "ALLOW"
  | DECISION_THROTTLE => "THROTTLE"
  | DECISION_BLOCK => "BLOCK"
  | DECISION_FLAG_SALES => "FLAG_SALES"
  end.

#[global] Instance DecisionKind_eq_dec : EqDecision DecisionKind.
Proof. solve_decision. Defined.

(** ** class TrialUser *)

Record Event : Type := {
  timestamp : float;
  type : string;
  resource : option string
}.

Record TrialUser : Type := {
  tenant_id : string;
  user_id : string;
  user_type : string;
  created_at : float;
  events : list Event;
  api_count : Z;
  feature_sequence : list string;
  last_active : float;
  session_durations : list float;
  estimated_cost : float;
  feature_value : float;
  abuse_score : float;
  roi_score : float;
  current_decision : DecisionKind;
  reasons : list string
}.

(** [TrialUser.__init__]: the constructor reads the clock twice, once for
    [created_at] and once for [last_active]. *)
Definition TrialUser_init (t_created t_active : float)
    (tenant user utype : string) : TrialUser :=
  {| tenant_id := tenant;
     user_id := user;
     user_type := utype;
     created_at := t_created;
     events := [];
     api_count := 0;
     feature_sequence := [];
     last_active := t_active;
     session_durations := [];
     estimated_cost := 0;
     feature_value := 0;
     abuse_score := 0;
     roi_score := 0;
     current_decision := DECISION_ALLOW;
     reasons := [] |}.

(** [TrialUser.add_event]; [now] is the value of its [time.time()]. *)
Definition add_event (now : float) (event_type : string)
    (resource_id : option string) (cost value : float)
    (self : TrialUser) : TrialUser :=
  let appended := feature_sequence self ++ [event_type] in
  let time_since_last := (now - last_active self)%float in
  {| tenant_id := tenant_id self;
     user_id := user_id self;
     user_type := user_type self;
     created_at := created_at self;
     events := events self ++
       [{| timestamp := now; type := event_type; resource := resource_id |}];
     api_count := api_count self + 1;
     feature_sequence :=
       if decide (10 < length appended) then Py.pop0 appended else appended;
     last_active := now;
     session_durations :=
       if Py.gt time_since_last 300 then session_durations self ++ [0%float]
       else match session_durations self with
            | [] => []
            | _ :: _ => Py.add_to_last time_since_last (session_durations self)
            end;
     estimated_cost := (estimated_cost self + cost)%float;
     feature_value := (feature_value self + value)%float;
     abuse_score := abuse_score self;
     roi_score := roi_score self;
     current_decision := current_decision self;
     reasons := reasons self |}.

(** ** class TenantConfig *)

Record TenantConfig : Type := {
  name : string;
  max_api_rate : float;
  max_cost_per_session : float;
  abuse_threshold : float;
  roi_min_threshold : float;
  weight_abuse : float;
  weight_cost : float;
  weight_value : float
}.

Definition TenantConfig_init (n : string) : TenantConfig :=
  {| name := n;
     max_api_rate := 50;
     max_cost_per_session := 10;
     abuse_threshold := 0.7;
     roi_min_threshold := 0;
     weight_abuse := 0.5;
     weight_cost := 0.3;
     weight_value := 0.2 |}.

(** ** class ResourceMonitor *)

(** [usage_log] is a [defaultdict(list)]: reading a missing key stores an
    empty list under it and returns that list.  ([drain_alerts] is
    initialised to an empty dict and never touched again.) *)
Record ResourceMonitor : Type := {
  usage_log : gmap string (list float)
}.

Definition ResourceMonitor_init : ResourceMonitor := {| usage_log := ∅ |}.

(** [d[k]] on a [defaultdict(list)]: the list and the dictionary after
    the access. *)
Definition defaultdict_getitem (d : gmap string (list float)) (k : string)
    : list float * gmap string (list float) :=
  match d !! k with
  | Some l => (l, d)
  | None => ([], <[k := []]> d)
  end.

(** [ResourceMonitor.log_usage]; [now] is the value of its [time.time()]. *)
Definition log_usage (now : float) (resource_id : string)
    (self : ResourceMonitor) : ResourceMonitor :=
  let '(l, d) := defaultdict_getitem (usage_log self) resource_id in
  let d := <[resource_id := l ++ [now]]> d in
  let '(l, d) := defaultdict_getitem d resource_id in
  {| usage_log :=
       <[resource_id := List.filter (fun t => Py.lt (now - t) 60) l]> d |}.

(** [ResourceMonitor.get_load]: the count, and the monitor after the
    access. *)
Definition get_load (resource_id : string) (self : ResourceMonitor)
    : nat * ResourceMonitor :=
  let '(l, d) := defaultdict_getitem (usage_log self) resource_id in
  (length l, {| usage_log := d |}).

(** ** Float formatting: [f"{x:.2f}"] *)

(** Two decimal digits of a number below 100. *)
Definition two_digits (n : Z) : string :=
  let s := NilZero.string_of_uint (N.to_uint (Z.to_N n)) in
  if (n <? 10)%Z then "0" +:+ s else s.

(** Nearest integer to [num / den], ties to the even one ([0 < den]). *)
Definition round_half_even (num den : Z) : Z :=
  let q := (num / den)%Z in
  let r := (num mod den)%Z in
  if (2 * r <? den)%Z then q
  else if (den <? 2 * r)%Z then (q + 1)%Z
  else if Z.even q then q else (q + 1)%Z.

(** The format specification [.2f]: the exact binary value, correctly
    rounded to two decimals (ties to even); the sign is kept even when
    the digits are all zero. *)
Definition format_2f (x : float) : string :=
  match Prim2SF x with
  | S754_nan => "nan"
  | S754_infinity s => if s then "-inf" else "inf"
  | S754_zero s => if s then "-0.00" else "0.00"
  | S754_finite s m e =>
      let hundredths :=
        match e with
        | Zneg p => round_half_even (100 * Zpos m) (2 ^ Zpos p)
        | _ => (100 * Zpos m * 2 ^ e)%Z
        end in
      (if s then "-" else "")
      +:+ NilZero.string_of_uint (N.to_uint (Z.to_N (hundredths / 100)))
      +:+ "." +:+ two_digits (hundredths mod 100)
  end.

(** ** TrialGuardEngine: scoring and decision *)

(** [len(seq) >= 5 and len(set(seq[-5:])) == 1] *)
Definition repetitive (seq : list string) : bool :=
  bool_decide (5 ≤ length seq)
  && bool_decide (size (list_to_set (Py.last_slice 5 seq) : gset string) = 1).

(** [TrialGuardEngine._calculate_scores]; [now] is the value of its
    [time.time()].  The method writes [abuse_score] and [roi_score] on
    the user object and returns nothing. *)
Definition _calculate_scores (now : float) (user : TrialUser)
    (tenant : TenantConfig) : TrialUser :=
  let duration_mins := Py.max ((now - created_at user) / 60)%float 0.1%float in
  let api_rate := (Py.float_of_int (api_count user) / duration_mins)%float in
  let raw_abuse_score := 0%float in
  let raw_abuse_score :=
    if Py.gt api_rate (max_api_rate tenant)
    then (raw_abuse_score + 0.4)%float else raw_abuse_score in
  let raw_abuse_score :=
    if repetitive (feature_sequence user)
    then (raw_abuse_score + 0.3)%float else raw_abuse_score in
  let raw_abuse_score :=
    if Py.gt (estimated_cost user) (max_cost_per_session tenant)
    then (raw_abuse_score + 0.4)%float else raw_abuse_score in
  let abuse := Py.min raw_abuse_score 1%float in
  let net_value := (feature_value user - estimated_cost user)%float in
  let risk_factor := (1 - abuse)%float in
  {| tenant_id := tenant_id user;
     user_id := user_id user;
     user_type := user_type user;
     created_at := created_at user;
     events := events user;
     api_count := api_count user;
     feature_sequence := feature_sequence user;
     last_active := last_active user;
     session_durations := session_durations user;
     estimated_cost := estimated_cost user;
     feature_value := feature_value user;
     abuse_score := abuse;
     roi_score := (net_value * risk_factor)%float;
     current_decision := current_decision user;
     reasons := reasons user |}.

(** Rule 2 of [_make_decision]: the resource of the last recorded event,
    when it is truthy and its load exceeds 100.  [get_load] is only
    called when the resource is truthy ([and] short-circuits). *)
Definition hot_resource (mon : ResourceMonitor) (user : TrialUser)
    : option string * ResourceMonitor :=
  match last (events user) with
  | Some e =>
      match resource e with
      | Some r =>
          if Py.truthy (Some r) then
            let '(load, mon') := get_load r mon in
            (if decide (100 < load) then Some r else None, mon')
          else (None, mon)
      | None => (None, mon)
      end
  | None => (None, mon)
  end.

(** [TrialGuardEngine._make_decision]: the decision, the reasons, and the
    resource monitor after the call. *)
Definition _make_decision (mon : ResourceMonitor) (user : TrialUser)
    (tenant : TenantConfig) : (DecisionKind * list string) * ResourceMonitor :=
  if Py.ge (abuse_score user) (abuse_threshold tenant) then
    if Py.lt (roi_score user) (-5)%float then
      ((DECISION_BLOCK,
        ["Critical Abuse Score (" +:+ format_2f (abuse_score user) +:+ ")";
         "Negative ROI (" +:+ format_2f (roi_score user) +:+ ")"]), mon)
    else if Py.gt (roi_score user) 5%float then
      ((DECISION_THROTTLE, ["High Volume but High Value"]), mon)
    else
      ((DECISION_BLOCK, ["Abuse Threshold Exceeded"]), mon)
  else
    let '(hot, mon') := hot_resource mon user in
    match hot with
    | Some r => ((DECISION_THROTTLE, ["Resource " +:+ r +:+ " Overloaded"]), mon')
    | None =>
        if Py.gt (roi_score user) 10%float && Py.lt (abuse_score user) 0.2%float
        then ((DECISION_FLAG_SALES, ["High ROI User"]), mon')
        else ((DECISION_ALLOW, ["Normal Behavior"]), mon')
    end.

(** ** The session state and the ambient oracles *)

(** [st.session_state.stats] *)
Record Stats : Type := {
  total_events : Z;
  blocked_events : Z;
  revenue_saved : float;
  cost_saved : float
}.

(** [st.session_state], as far as the engine uses it. *)
Record SessionState : Type := {
  users : gmap string TrialUser;
  tenants : gmap string TenantConfig;
  resource_monitor : ResourceMonitor;
  stats : Stats
}.

(** What the engine reads from outside: the successive values of
    [time.time()] and of [random.random()], each with the number of
    readings already taken. *)
Record World : Type := {
  clock : nat -> float;
  ticks : nat;
  rand : nat -> float;
  draws : nat
}.

Record Machine : Type := {
  world : World;
  session : SessionState
}.

(** [TrialGuardEngine.__init__] on a session that holds nothing yet. *)
Definition TrialGuardEngine_init : SessionState :=
  {| users := ∅;
     tenants := <["Tenant_A" := TenantConfig_init "Tenant_A"]>
                  (<["Tenant_B" := TenantConfig_init "Tenant_B"]> ∅);
     resource_monitor := ResourceMonitor_init;
     stats := {| total_events := 0; blocked_events := 0;
                 revenue_saved := 0; cost_saved := 0 |} |}.

(** ** A state and exception monad for the engine's methods *)

Inductive Exn : Type :=
| KeyError (key : string).

Inductive Outcome (A : Type) : Type :=
| Return (a : A)
| Raise (e : Exn).
Arguments Return {A} a.
Arguments Raise {A} e.

(** A computation runs on a machine, returns or raises, and leaves a
    machine behind either way: an exception does not undo the writes that
    came before it. *)
Definition Run (A : Type) : Type := Machine -> Outcome A * Machine.

#[global] Instance Run_ret : MRet Run := fun A a m => (Return a, m).

#[global] Instance Run_bind : MBind Run := fun A B f c m =>
  match c m with
  | (Return a, m') => f a m'
  | (Raise e, m') => (Raise e, m')
  end.

Definition raise {A} (e : Exn) : Run A := fun m => (Raise e, m).

Definition gets {A} (f : SessionState -> A) : Run A :=
  fun m => (Return (f (session m)), m).

Definition modify (f : SessionState -> SessionState) : Run () :=
  fun m => (Return (), {| world := world m; session := f (session m) |}).

(** [time.time()] *)
Definition time_time : Run float := fun m =>
  let w := world m in
  (Return (clock w (ticks w)),
   {| world := {| clock := clock w; ticks := S (ticks w);
                  rand := rand w; draws := draws w |};
      session := session m |}).

(** [random.random()] *)
Definition random_random : Run float := fun m =>
  let w := world m in
  (Return (rand w (draws w)),
   {| world := {| clock := clock w; ticks := ticks w;
                  rand := rand w; draws := S (draws w) |};
      session := session m |}).

(** [random.uniform(a, b)] is [a + (b - a) * random()]. *)
Definition random_uniform (a b : float) : Run float :=
  r ← random_random; mret (a + (b - a) * r)%float.

(** [d[k]] on a plain dict raises [KeyError] on a missing key. *)
Definition dict_getitem {V} (d : gmap string V) (k : string) : Run V :=
  match d !! k with
  | Some v => mret v
  | None => raise (KeyError k)
  end.

Definition set_users (f : gmap string TrialUser -> gmap string TrialUser)
    (s : SessionState) : SessionState :=
  {| users := f (users s); tenants := tenants s;
     resource_monitor := resource_monitor s; stats := stats s |}.

Definition set_resource_monitor (mon : ResourceMonitor)
    (s : SessionState) : SessionState :=
  {| users := users s; tenants := tenants s;
     resource_monitor := mon; stats := stats s |}.

Definition set_stats (f : Stats -> Stats) (s : SessionState) : SessionState :=
  {| users := users s; tenants := tenants s;
     resource_monitor := resource_monitor s; stats := f (stats s) |}.

(** A write through the reference [user = self.users[user_id]]: the
    object is the one stored in the dict. *)
Definition update_user (uid : string) (f : TrialUser -> TrialUser) : Run () :=
  modify (set_users (fun us => match us !! uid with
                               | Some u => <[uid := f u]> us
                               | None => us
                               end)).

Definition set_decision (d : DecisionKind) (rs : list string)
    (user : TrialUser) : TrialUser :=
  {| tenant_id := tenant_id user;
     user_id := user_id user;
     user_type := user_type user;
     created_at := created_at user;
     events := events user;
     api_count := api_count user;
     feature_sequence := feature_sequence user;
     last_active := last_active user;
     session_durations := session_durations user;
     estimated_cost := estimated_cost user;
     feature_value := feature_value user;
     abuse_score := abuse_score user;
     roi_score := roi_score user;
     current_decision := d;
     reasons := rs |}.

(** Step 5 of [process_event]. *)
Definition update_stats (d : DecisionKind) (cost value : float) (st : Stats) : Stats :=
  let total := (total_events st + 1)%Z in
  match d with
  | DECISION_BLOCK =>
      {| total_events := total;
         blocked_events := (blocked_events st + 1)%Z;
         revenue_saved := revenue_saved st;
         cost_saved := (cost_saved st + cost)%float |}
  | DECISION_FLAG_SALES =>
      {| total_events := total;
         blocked_events := blocked_events st;
         revenue_saved := (revenue_saved st + value * 0.1)%float;
         cost_saved := cost_saved st |}
  | _ =>
      {| total_events := total;
         blocked_events := blocked_events st;
         revenue_saved := revenue_saved st;
         cost_saved := cost_saved st |}
  end.

(** [self.resource_monitor.log_usage(r)] and
    [self.resource_monitor.get_load(r)] on the monitor of the session. *)
Definition monitor_log_usage (r : string) : Run () :=
  now ← time_time;
  mon ← gets resource_monitor;
  modify (set_resource_monitor (log_usage now r mon)).

Definition monitor_get_load (r : string) : Run nat :=
  mon ← gets resource_monitor;
  let '(load, mon') := get_load r mon in
  modify (set_resource_monitor mon');;
  mret load.

(** The synthetic cost and value of an event (the block "Simulating
    cost/value based on event type" of [process_event], with the
    resource logging that doubles the cost of a loaded resource). *)
Definition simulate_cost_value (event_type : string)
    (resource_id : option string) : Run (float * float) :=
  cost ← (if decide (event_type = "API_CALL")
          then random_uniform 0.1 0.5 else mret 0.05%float);
  value ← (if decide (event_type = "CHECKOUT_ATTEMPT")
           then random_uniform 0.5 2 else mret 0.1%float);
  cost ← match resource_id with
         | Some r =>
             if Py.truthy (Some r) then
               monitor_log_usage r;;
               load ← monitor_get_load r;
               mret (if decide (50 < load) then (cost * 2)%float else cost)
             else mret cost
         | None => mret cost
         end;
  mret (cost, value).

(** [TrialGuardEngine.process_event] *)
Definition process_event (tenant_id user_id event_type : string)
    (resource_id : option string) (user_type_simulation : string)
    : Run DecisionKind :=
  us ← gets users;
  (if decide (us !! user_id = None) then
     t_created ← time_time;
     t_active ← time_time;
     modify (set_users <[user_id :=
       TrialUser_init t_created t_active tenant_id user_id
                      user_type_simulation]>)
   else mret ());;
  us ← gets users;
  _ ← dict_getitem us user_id;
  ts ← gets tenants;
  tenant ← dict_getitem ts tenant_id;
  '(cost, value) ← simulate_cost_value event_type resource_id;
  now ← time_time;
  update_user user_id (add_event now event_type resource_id cost value);;
  now ← time_time;
  update_user user_id (fun user => _calculate_scores now user tenant);;
  us ← gets users;
  user ← dict_getitem us user_id;
  mon ← gets resource_monitor;
  let '((decision, rs), mon') := _make_decision mon user tenant in
  modify (set_resource_monitor mon');;
  update_user user_id (set_decision decision rs);;
  modify (set_stats (update_stats decision cost value));;
  mret decision.

(** ** Call sequences on one user profile *)

(** The two methods that write a [TrialUser], with the clock value each
    call reads. *)
Inductive UserCall : Type :=
| CallAddEvent (now : float) (event_type : string)
    (resource_id : option string) (cost value : float)
| CallCalculate (now : float) (tenant : TenantConfig).

Definition apply_call (user : TrialUser) (c : UserCall) : TrialUser :=
  match c with
  | CallAddEvent now event_type resource_id cost value =>
      add_event now event_type resource_id cost value user
  | CallCalculate now tenant => _calculate_scores now user tenant
  end.

Definition run_calls (cs : list UserCall) (user : TrialUser) : TrialUser :=
  fold_left apply_call cs user.

(** The event types passed to [add_event], in arrival order. *)
Definition event_types (cs : list UserCall) : list string :=
  omap (fun c => match c with
                 | CallAddEvent _ event_type _ _ _ => Some event_type
                 | CallCalculate _ _ => None
                 end) cs.

(** ** The scoring and decision rules as the specification words them *)

Module Spec.

Definition all_identical (l : list string) : Prop :=
  Forall (fun x => Forall (fun y => x = y) l) l.

#[global] Instance all_identical_dec l : Decision (all_identical l).
Proof. unfold all_identical. apply _. Defined.

(** The sequence has at least five entries and its last five are all
    the same. *)
Definition last_five_identical (seq : list string) : Prop :=
  5 ≤ length seq ∧ all_identical (take 5 (reverse seq)).

#[global] Instance last_five_identical_dec seq : Decision (last_five_identical seq).
Proof. unfold last_five_identical. apply _. Defined.

Definition minutes_since_created (now : float) (user : TrialUser) : float :=
  ((now - created_at user) / 60)%float.

Definition rate_exceeded (now : float) (user : TrialUser)
    (tenant : TenantConfig) : bool :=
  Py.gt (Py.float_of_int (api_count user)
         / Py.max (minutes_since_created now user) 0.1)%float
        (max_api_rate tenant).

Definition cost_exceeded (user : TrialUser) (tenant : TenantConfig) : bool :=
  Py.gt (estimated_cost user) (max_cost_per_session tenant).

(** A signal contributes its weight when it fires and nothing otherwise. *)
Definition signal (weight : float) (fires : bool) : float :=
  if fires then weight else 0%float.

Definition abuse_sum (now : float) (user : TrialUser)
    (tenant : TenantConfig) : float :=
  (signal 0.4 (rate_exceeded now user tenant)
   + signal 0.3 (bool_decide (last_five_identical (feature_sequence user)))
   + signal 0.4 (cost_exceeded user tenant))%float.

Definition abuseScore (now : float) (user : TrialUser)
    (tenant : TenantConfig) : float :=
  Py.min (abuse_sum now user tenant) 1%float.

Definition roiScore (now : float) (user : TrialUser)
    (tenant : TenantConfig) : float :=
  ((feature_value user - estimated_cost user)
   * (1 - abuseScore now user tenant))%float.

(** The outcome of rule 1 of the decision policy (the abuse gate). *)
Definition abuse_gate_outcome (user : TrialUser) : DecisionKind * list string :=
  if (roi_score user <? -5)%float then
    (DECISION_BLOCK,
     ["Critical Abuse Score (" +:+ format_2f (abuse_score user) +:+ ")";
      "Negative ROI (" +:+ format_2f (roi_score user) +:+ ")"])
  else if (5 <? roi_score user)%float then
    (DECISION_THROTTLE, ["High Volume but High Value"])
  else (DECISION_BLOCK, ["Abuse Threshold Exceeded"]).

End Spec.

(** [0 <= x <= 1] on floats. *)
Definition in_unit_interval (x : float) : Prop :=
  (0 <=? x)%float = true ∧ (x <=? 1)%float = true.

(** ** Call sequences on the resource monitor *)

(** The two methods of [ResourceMonitor], with the clock value a
    [log_usage] call reads. *)
Inductive MonitorCall : Type :=
| CallLogUsage (now : float) (resource_id : string)
| CallGetLoad (resource_id : string).

Definition apply_monitor_call (mon : ResourceMonitor) (c : MonitorCall)
    : ResourceMonitor :=
  match c with
  | CallLogUsage now r => log_usage now r mon
  | CallGetLoad r => (get_load r mon).2
  end.

Definition run_monitor (cs : list MonitorCall) (mon : ResourceMonitor)
    : ResourceMonitor :=
  fold_left apply_monitor_call cs mon.

(** The clock value of the most recent [log_usage] call for a resource. *)
Definition last_logged (rid : string) (cs : list MonitorCall) : option float :=
  fold_left (fun acc c =>
               match c with
               | CallLogUsage now r => if decide (r = rid) then Some now else acc
               | CallGetLoad _ => acc
               end) cs None.

(** The timestamps the monitor holds for a resource. *)
Definition retained (rid : string) (mon : ResourceMonitor) : list float :=
  default [] (usage_log mon !! rid).

(** [t] is less than 60 seconds old at [now], hence not older than 60. *)
Definition within_window (now t : float) : Prop :=
  (now - t <? 60)%float = true ∧ (60 <? now - t)%float = false.

(** ** Runs of the orchestrator *)

(** A clock that advances one second per reading from time 1000, and a
    generator that always draws [r]. *)
Definition steady_world (r : float) : World :=
  {| clock := fun n => (1000 + Py.float_of_int (Z.of_nat n))%float; ticks := 0;
     rand := fun _ => r; draws := 0 |}.

Definition fresh_machine (r : float) : Machine :=
  {| world := steady_world r; session := TrialGuardEngine_init |}.

(** Two machines agree when their sessions are equal and their clocks
    and generators will deliver the same values from now on. *)
Definition same_readings (w1 w2 : World) : Prop :=
  ∀ i, clock w1 (ticks w1 + i) = clock w2 (ticks w2 + i).

Definition same_draws (w1 w2 : World) : Prop :=
  ∀ i, rand w1 (draws w1 + i) = rand w2 (draws w2 + i).

Definition agree (m1 m2 : Machine) : Prop :=
  session m1 = session m2
  ∧ same_readings (world m1) (world m2)
  ∧ same_draws (world m1) (world m2).

(** A computation is deterministic when, on machines that agree, it
    has the same outcome and leaves machines that agree. *)
Definition deterministic {A} (c : Run A) : Prop :=
  ∀ m1 m2, agree m1 m2 -> (c m1).1 = (c m2).1 ∧ agree (c m1).2 (c m2).2.

(** ** Sample profiles, tenants and machines *)

(** A user created at time 0 who sends six events of alternating types,
    one per second. *)
Definition six_events : list UserCall :=
  [CallAddEvent 1 "LOGIN" None 0.05 0.1;
   CallAddEvent 2 "VIEW_DASHBOARD" None 0.05 0.1;
   CallAddEvent 3 "EXPORT_DATA" None 0.05 0.1;
   CallAddEvent 4 "LOGIN" None 0.05 0.1;
   CallAddEvent 5 "VIEW_DASHBOARD" None 0.05 0.1;
   CallAddEvent 6 "EXPORT_DATA" None 0.05 0.1].

Definition busy_user : TrialUser :=
  run_calls six_events (TrialUser_init 0 0 "Tenant_A" "u1" "NORMAL").

(** A tenant whose threshold was lowered to 0.1, and a profile with
    abuse score 0.1 and ROI 16.2: both the abuse gate and the sales
    condition are met. *)
Definition lenient_tenant : TenantConfig :=
  {| name := "Tenant_A"; max_api_rate := 50; max_cost_per_session := 10;
     abuse_threshold := 0.1; roi_min_threshold := 0;
     weight_abuse := 0.5; weight_cost := 0.3; weight_value := 0.2 |}.

Definition valuable_user : TrialUser :=
  {| tenant_id := "Tenant_A"; user_id := "u1"; user_type := "HIGH_VALUE";
     created_at := 0; events := []; api_count := 3;
     feature_sequence := ["LOGIN"; "CHECKOUT_ATTEMPT"; "CHECKOUT_ATTEMPT"];
     last_active := 10; session_durations := [];
     estimated_cost := 2; feature_value := 20;
     abuse_score := 0.1; roi_score := 16.2;
     current_decision := DECISION_ALLOW; reasons := [] |}.

(** A user who sends five costly ["API_CALL"] events in five minutes and
    is then scored under the default policy. *)
Definition costly_user : TrialUser :=
  run_calls
    [CallAddEvent 60 "API_CALL" (Some "API_GATEWAY") 5 0.1;
     CallAddEvent 120 "API_CALL" (Some "API_GATEWAY") 5 0.1;
     CallAddEvent 180 "API_CALL" (Some "API_GATEWAY") 5 0.1;
     CallAddEvent 240 "API_CALL" (Some "API_GATEWAY") 5 0.1;
     CallAddEvent 300 "API_CALL" (Some "API_GATEWAY") 5 0.1;
     CallCalculate 300 (TenantConfig_init "Tenant_A")]
    (TrialUser_init 0 0 "Tenant_A" "u2" "ABUSIVE").

(** Two machines with the same session and the same generator, whose
    clocks are at different positions of the same timeline. *)
Definition early_machine : Machine :=
  {| world := {| clock := fun n => (1000 + Py.float_of_int (Z.of_nat n))%float;
                 ticks := 3; rand := fun _ => 0.25%float; draws := 0 |};
     session := TrialGuardEngine_init |}.

Definition shifted_machine : Machine :=
  {| world := {| clock := fun n => clock (world early_machine) (3 + n);
                 ticks := 0; rand := fun _ => 0.25%float; draws := 7 |};
     session := TrialGuardEngine_init |}.

(** ** Successful runs and request sequences *)

(** [returns c m Q]: on machine [m] the computation [c] returns (it does
    not raise), with a value and a final machine that satisfy [Q]. *)
Definition returns {A} (c : Run A) (m : Machine)
    (Q : A -> Machine -> Prop) : Prop :=
  ∃ a m', c m = (Return a, m') ∧ Q a m'.

(** The monitor after the resource logging of one event: a [log_usage]
    of the resource when it is truthy, nothing otherwise. *)
Definition logged (resource_id : option string) (now : float)
    (mon : ResourceMonitor) : ResourceMonitor :=
  match resource_id with
  | Some r => if Py.truthy (Some r) then log_usage now r mon else mon
  | None => mon
  end.

(** The arguments of one [process_event] call. *)
Record Request : Type := {
  req_tenant : string;
  req_user : string;
  req_event : string;
  req_resource : option string;
  req_hint : string
}.

(** The outcomes of the calls of a request sequence, in order, and the
    machine after the last one. *)
Fixpoint serve (rs : list Request) (m : Machine)
    : list (Outcome DecisionKind) * Machine :=
  match rs with
  | [] => ([], m)
  | r :: rs =>
      let '(out, m1) :=
        process_event (req_tenant r) (req_user r) (req_event r)
                      (req_resource r) (req_hint r) m in
      let '(outs, m2) := serve rs m1 in
      (out :: outs, m2)
  end.

Definition returned (out : Outcome DecisionKind) : bool :=
  match out with Return _ => true | Raise _ => false end.

Definition returned_block (out : Outcome DecisionKind) : bool :=
  match out with Return DECISION_BLOCK => true | _ => false end.

(** What the engine keeps true of a profile stored under [key]. *)
Definition consistent_profile (key : string) (u : TrialUser) : Prop :=
  user_id u = key
  ∧ api_count u = Z.of_nat (length (events u))
  ∧ length (feature_sequence u) = Nat.min 10 (length (events u))
  ∧ length (session_durations u) ≤ length (events u)
  ∧ in_unit_interval (abuse_score u).

(** A float that is neither an infinity nor a NaN, as every value of
    [time.time()] is. *)
Definition is_finite (x : float) : bool :=
  match Prim2SF x with
  | S754_zero _ | S754_finite _ _ _ => true
  | S754_infinity _ | S754_nan => false
  end.

(** ** The progress bar of [render_analyzer] *)

(** [chart_val = (user.roi_score + 10) / 20] followed by
    [chart_val = max(0.0, min(1.0, chart_val))]. *)
Definition chart_val (roi_score : float) : float :=
  let chart_val := ((roi_score + 10) / 20)%float in
  Py.max 0 (Py.min 1 chart_val).

(** ** The traffic simulation *)

(** [run_simulation] draws integers from the generator as well
    ([random.randint], [random.choice]); the integer stream is a second
    oracle next to the engine's machine.  It can fail in one more way
    than the engine: [random.choice] raises [IndexError] on an empty
    list. *)
Inductive SimExn : Type :=
| EngineError (e : Exn)
| IndexError.

Inductive SimOutcome (A : Type) : Type :=
| SimReturn (a : A)
| SimRaise (e : SimExn).
Arguments SimReturn {A} a.
Arguments SimRaise {A} e.

Record SimMachine : Type := {
  engine : Machine;
  ints : nat -> Z;
  int_draws : nat
}.

Definition Sim (A : Type) : Type := SimMachine -> SimOutcome A * SimMachine.

#[global] Instance Sim_ret : MRet Sim := fun A a sm => (SimReturn a, sm).

#[global] Instance Sim_bind : MBind Sim := fun A B f c sm =>
  match c sm with
  | (SimReturn a, sm') => f a sm'
  | (SimRaise e, sm') => (SimRaise e, sm')
  end.

Definition sim_raise {A} (e : SimExn) : Sim A := fun sm => (SimRaise e, sm).

(** A computation of the engine, run inside the simulation. *)
Definition lift {A} (c : Run A) : Sim A := fun sm =>
  let '(out, m') := c (engine sm) in
  let sm' := {| engine := m'; ints := ints sm; int_draws := int_draws sm |} in
  match out with
  | Return a => (SimReturn a, sm')
  | Raise e => (SimRaise (EngineError e), sm')
  end.

(** [Random._randbelow(n)] for a positive [n]: some value in [0, n),
    taken from the generator. *)
Definition randbelow (n : Z) : Sim Z := fun sm =>
  (SimReturn (ints sm (int_draws sm) mod n)%Z,
   {| engine := engine sm; ints := ints sm; int_draws := S (int_draws sm) |}).

(** [random.randint(a, b)] is [a + _randbelow(b - a + 1)]. *)
Definition random_randint (a b : Z) : Sim Z :=
  k ← randbelow (b - a + 1); mret (a + k)%Z.

(** [random.choice(seq)] is [seq[_randbelow(len(seq))]], and raises
    [IndexError] when [seq] is empty. *)
Definition random_choice {A} (seq : list A) : Sim A :=
  match seq with
  | [] => sim_raise IndexError
  | x :: _ =>
      k ← randbelow (Z.of_nat (length seq));
      mret (nth (Z.to_nat k) seq x)
  end.

(** [str(n)] for an [int]. *)
Definition str_of_int (z : Z) : string :=
  match z with
  | Zneg p => "-" +:+ NilZero.string_of_uint (Pos.to_uint p)
  | _ => NilZero.string_of_uint (N.to_uint (Z.to_N z))
  end.

Definition event_types_pool : list string :=
  ["LOGIN"; "VIEW_DASHBOARD"; "API_CALL"; "EXPORT_DATA"; "CHECKOUT_ATTEMPT"].

Definition resources_pool : list string :=
  ["DB_SHARD_1"; "API_GATEWAY"; "EXPORT_WORKER"; "AUTH_SERVICE"].

(** The body of the loop of [run_simulation]: one simulated event and
    its log line. *)
Definition simulate_event (tenant_ids : list string) : Sim string :=
  tenant_id ← random_choice tenant_ids;
  rand ← lift random_random;
  let '(u_type, u_base) :=
    if Py.lt rand 0.7 then ("NORMAL", "msg_user")
    else if Py.lt rand 0.90 then ("ABUSIVE", "bad_actor")
    else ("HIGH_VALUE", "vip_lead") in
  user_suffix ← random_randint 1 5;
  let user_id := u_base +:+ "_" +:+ str_of_int user_suffix in
  '(e_type, res) ←
    (if decide (u_type = "ABUSIVE") then mret ("API_CALL", "EXPORT_WORKER")
     else if decide (u_type = "HIGH_VALUE") then
       e ← random_choice ["CHECKOUT_ATTEMPT"; "VIEW_DASHBOARD"];
       mret (e, "API_GATEWAY")
     else
       e ← random_choice event_types_pool;
       r ← random_choice resources_pool;
       mret (e, r));
  decision ← lift (process_event tenant_id user_id e_type (Some res) u_type);
  mret ("[" +:+ tenant_id +:+ "] User " +:+ user_id +:+ " (" +:+ u_type
        +:+ ") -> " +:+ e_type +:+ " on " +:+ res +:+ " : "
        +:+ decision_name decision).

(** [for _ in range(n): ... logs.append(...)] *)
Fixpoint simulate_events (n : nat) (tenant_ids : list string)
    (logs : list string) : Sim (list string) :=
  match n with
  | O => mret logs
  | S n =>
      line ← simulate_event tenant_ids;
      simulate_events n tenant_ids (logs ++ [line])
  end.

(** [run_simulation(engine)].  [list(engine.tenants.keys())] lists the
    tenant ids in the order of the registry (here the order of the
    [gmap], which decides only which draw picks which tenant). *)
Definition run_simulation : Sim (list string) :=
  num_events ← random_randint 5 20;
  ts ← lift (gets tenants);
  let tenant_ids := (map_to_list ts).*1 in
  simulate_events (Z.to_nat num_events) tenant_ids [].

(** The user ids the simulation can produce: three bases, suffixes 1
    to 5. *)
Definition simulated_users : list string :=
  base ← ["msg_user"; "bad_actor"; "vip_lead"];
  k ← [1; 2; 3; 4; 5]%Z;
  [base +:+ "_" +:+ str_of_int k].

(** [sim_returns c sm Q]: the simulation step [c] returns on [sm], with
    a value and a final machine that satisfy [Q]. *)
Definition sim_returns {A} (c : Sim A) (sm : SimMachine)
    (Q : A -> SimMachine -> Prop) : Prop :=
  ∃ a sm', c sm = (SimReturn a, sm') ∧ Q a sm'.

(** What [n] simulated events may change in a session. *)
Definition simulated (s s' : SessionState) (n : nat) : Prop :=
  tenants s' = tenants s
  ∧ total_events (stats s') = (total_events (stats s) + Z.of_nat n)%Z
  ∧ dom (users s') ⊆ dom (users s) ∪ list_to_set simulated_users
  ∧ dom (usage_log (resource_monitor s'))
    ⊆ dom (usage_log (resource_monitor s)) ∪ list_to_set resources_pool.

(** ** Sample sessions *)

(** A monitor that has logged 101 accesses of one resource at the same
    instant, and a profile whose last event names that resource. *)
Definition hot_monitor : ResourceMonitor :=
  run_monitor (replicate 101 (CallLogUsage 10 "EXPORT_WORKER"))
              ResourceMonitor_init.

Definition exporting_user : TrialUser :=
  add_event 10 "EXPORT_DATA" (Some "EXPORT_WORKER") 0.05 0.1
            (TrialUser_init 0 0 "Tenant_A" "msg_user_1" "NORMAL").

(** The engine after one event of user ["u1"] under ["Tenant_A"]. *)
Definition second_machine : Machine :=
  (process_event "Tenant_A" "u1" "LOGIN" None "NORMAL" (fresh_machine 0.5)).2.

(** A lead who alternates checkout attempts and dashboard views. *)
Definition vip_request (ety : string) : Request :=
  {| req_tenant := "Tenant_A"; req_user := "vip_lead_1"; req_event := ety;
     req_resource := Some "API_GATEWAY"; req_hint := "HIGH_VALUE" |}.

Definition vip_requests : list Request :=
  vip_request <$>
    ["CHECKOUT_ATTEMPT"; "VIEW_DASHBOARD"; "CHECKOUT_ATTEMPT"; "VIEW_DASHBOARD";
     "CHECKOUT_ATTEMPT"; "VIEW_DASHBOARD"; "CHECKOUT_ATTEMPT"; "VIEW_DASHBOARD";
     "CHECKOUT_ATTEMPT"; "VIEW_DASHBOARD"].

Definition vip_machine : Machine := (serve vip_requests (fresh_machine 0.9)).2.

(** Simulation machines: one on the engine as initialised, one on an
    engine without tenants. *)
Definition demo_sim : SimMachine :=
  {| engine := fresh_machine 0.75;
     ints := fun n => Z.of_nat (7 * n + 3); int_draws := 0 |}.

Definition no_tenant_sim : SimMachine :=
  {| engine := {| world := steady_world 0.75;
                  session := {| users := ∅; tenants := ∅;
                                resource_monitor := ResourceMonitor_init;
                                stats := stats TrialGuardEngine_init |} |};
     ints := fun n => Z.of_nat (7 * n + 3); int_draws := 0 |}.

(** ** Signs of floats and of clock gaps *)

(** A float of the specification that is a zero, a positive finite
    number or [+inf]. *)
Definition SFnonneg (x : spec_float) : bool :=
  match x with
  | S754_zero _ => true
  | S754_finite s _ _ | S754_infinity s => negb s
  | S754_nan => false
  end.

(** No [add_event] of the sequence is stamped before the activity time
    it finds: every gap [now - last_active] is at least 0.  [last] is
    the activity time before the first call. *)
Fixpoint gaps_nonneg (last : float) (cs : list UserCall) : Prop :=
  match cs with
  | [] => True
  | CallAddEvent now _ _ _ _ :: cs =>
      (0 <=? now - last)%float = true ∧ gaps_nonneg now cs
  | CallCalculate _ _ :: cs => gaps_nonneg last cs
  end.

(** * Properties *)

(** ** Order facts on binary64 *)

Section FloatOrder.

Local Open Scope float_scope.

Lemma SFcompare_antisym (a b : spec_float) :
  SFcompare b a = option_map CompOpp (SFcompare a b).
Proof.
  destruct a as [sa|sa| |sa ma ea], b as [sb|sb| |sb mb eb];
    unfold SFcompare;
    repeat match goal with s : bool |- _ => destruct s end;
    try reflexivity;
    change (Pos.compare_cont Eq mb ma) with (mb ?= ma)%positive;
    change (Pos.compare_cont Eq ma mb) with (ma ?= mb)%positive;
    rewrite (Z.compare_antisym ea eb), (Pos.compare_antisym ma mb);
    destruct (ea ?= eb)%Z, (ma ?= mb)%positive; reflexivity.
Qed.

Lemma ltb_asym (x y : float) : (x <? y) = true -> (y <? x) = false.
Proof.
  rewrite !ltb_spec. unfold SFltb. rewrite (SFcompare_antisym (Prim2SF x) (Prim2SF y)).
  destruct (SFcompare (Prim2SF x) (Prim2SF y)) as [[]|]; simpl; congruence.
Qed.

Lemma leb_not_gt (x y : float) : (x <=? y) = true -> (y <? x) = false.
Proof.
  rewrite leb_spec, ltb_spec. unfold SFleb, SFltb.
  rewrite (SFcompare_antisym (Prim2SF x) (Prim2SF y)).
  destruct (SFcompare (Prim2SF x) (Prim2SF y)) as [[]|]; simpl; congruence.
Qed.

End FloatOrder.

(** ** Sign facts on binary64 *)

Section FloatSign.

Local Open Scope float_scope.

Lemma leb_zero_nonneg (x : float) : (0 <=? x) = SFnonneg (Prim2SF x).
Proof.
  rewrite leb_spec. change (Prim2SF 0) with (S754_zero false).
  by destruct (Prim2SF x) as [[]|[]| |[] m e].
Qed.

Lemma shr_1_nonneg (mrs : shr_record) :
  (0 <= shr_m mrs)%Z -> (0 <= shr_m (shr_1 mrs))%Z.
Proof.
  destruct mrs as [m r s]. cbn [shr_m]. intros Hm.
  destruct m as [|[p|p|]|p]; cbn; lia.
Qed.

Lemma iter_pos_shr_1_nonneg (p : positive) (mrs : shr_record) :
  (0 <= shr_m mrs)%Z -> (0 <= shr_m (@SpecFloat.iter_pos shr_record shr_1 p mrs))%Z.
Proof.
  revert mrs. induction p as [p IH|p IH|]; intros mrs Hm; cbn [SpecFloat.iter_pos].
  - apply IH, IH, shr_1_nonneg, Hm.
  - apply IH, IH, Hm.
  - apply shr_1_nonneg, Hm.
Qed.

Lemma shr_fexp_nonneg (m e : Z) (l : location) :
  (0 <= m)%Z -> (0 <= shr_m (shr_fexp prec emax m e l).1)%Z.
Proof.
  intros Hm. unfold shr_fexp, shr.
  assert (0 <= shr_m (shr_record_of_loc m l))%Z as Hrec
    by (by destruct l as [|[]]).
  destruct (fexp prec emax (Zdigits2 m + e) - e)%Z; cbn [fst]; try done.
  by apply iter_pos_shr_1_nonneg.
Qed.

Lemma round_nearest_even_nonneg (m : Z) (l : location) :
  (0 <= m)%Z -> (0 <= round_nearest_even m l)%Z.
Proof.
  intros Hm. destruct l as [|[]]; cbn [round_nearest_even]; try done; try lia.
  destruct (Z.even m); lia.
Qed.

Lemma binary_round_aux_nonneg (m e : Z) (l : location) :
  (0 <= m)%Z -> SFnonneg (binary_round_aux prec emax false m e l) = true.
Proof.
  intros Hm. unfold binary_round_aux.
  pose proof (shr_fexp_nonneg m e l Hm) as H1.
  destruct (shr_fexp prec emax m e l) as [mrs' e']. cbn [fst] in H1.
  pose proof (shr_fexp_nonneg _ e' loc_Exact
                (round_nearest_even_nonneg _ (loc_of_shr_record mrs') H1)) as H2.
  destruct (shr_fexp prec emax _ e' loc_Exact) as [mrs'' e'']. cbn [fst] in H2.
  destruct (shr_m mrs'') as [|p|p]; [done| |lia].
  by destruct (e'' <=? emax - prec)%Z.
Qed.

Lemma binary_normalize_nonneg (m e : Z) :
  (0 <= m)%Z -> SFnonneg (binary_normalize prec emax m e false) = true.
Proof.
  intros Hm. destruct m as [|p|p]; [done| |lia].
  cbn [binary_normalize]. unfold binary_round.
  destruct (shl_align p e _) as [mz ez]. by apply binary_round_aux_nonneg.
Qed.

(** The sum of two floats that are not negative is not negative. *)
Lemma add_nonneg (x y : float) :
  (0 <=? x) = true -> (0 <=? y) = true -> (0 <=? x + y) = true.
Proof.
  rewrite !leb_zero_nonneg, add_spec. unfold SF64add.
  destruct (Prim2SF x) as [sx|sx| |sx mx ex], (Prim2SF y) as [sy|sy| |sy my ey];
    cbn [SFnonneg SFadd]; try done;
    try (destruct sx; try done); try (destruct sy; try done).
  intros _ _. apply binary_normalize_nonneg. cbn [cond_Zopp]. lia.
Qed.

End FloatSign.

(** ** Scoring *)

Section Scoring.

Implicit Types (user : TrialUser) (tenant : TenantConfig) (now : float).

(** A set built from a non-empty list has one element exactly when the
    entries of the list are all the same. *)
Lemma size_list_to_set_1 (l : list string) :
  l ≠ [] ->
  size (list_to_set l : gset string) = 1 ↔ Spec.all_identical l.
Proof.
  intros Hne. unfold Spec.all_identical. rewrite Forall_forall. split.
  - intros [x Hx]%size_1_elem_of y Hy. rewrite Forall_forall. intros z Hz.
    assert (y ∈ (list_to_set l : gset string)) as Hy' by (apply elem_of_list_to_set; done).
    assert (z ∈ (list_to_set l : gset string)) as Hz' by (apply elem_of_list_to_set; done).
    rewrite Hx in Hy', Hz'. set_solver.
  - intros Hall. destruct l as [|x l]; [done|].
    assert ((list_to_set (x :: l) : gset string) = {[x]}) as ->.
    { apply set_eq. intros y. rewrite elem_of_list_to_set, elem_of_singleton. split.
      - intros Hy. specialize (Hall x (list_elem_of_here _ _)).
        rewrite Forall_forall in Hall. symmetry. by apply Hall.
      - intros ->. apply list_elem_of_here. }
    apply size_singleton.
Qed.

Lemma all_identical_reverse (l : list string) :
  Spec.all_identical (reverse l) ↔ Spec.all_identical l.
Proof.
  unfold Spec.all_identical. rewrite !Forall_forall.
  setoid_rewrite Forall_forall. setoid_rewrite elem_of_reverse. done.
Qed.

(** The test of the code, [len(set(seq[-5:])) == 1] behind the length
    guard, decides the repetition signal of the specification. *)
Lemma repetitive_spec (seq : list string) :
  repetitive seq = bool_decide (Spec.last_five_identical seq).
Proof.
  unfold repetitive, Spec.last_five_identical, Py.last_slice.
  destruct (decide (5 ≤ length seq)) as [Hlen|Hlen].
  - rewrite (bool_decide_eq_true_2 _ Hlen). simpl.
    apply bool_decide_ext.
    rewrite take_reverse, all_identical_reverse.
    rewrite size_list_to_set_1.
    + tauto.
    + intros Hnil. apply (f_equal length) in Hnil.
      rewrite length_drop in Hnil. simpl in Hnil. lia.
  - rewrite (bool_decide_eq_false_2 _ Hlen). simpl.
    symmetry. apply bool_decide_eq_false_2. tauto.
Qed.

(** The raw score is one of eight sums; the clamp sends each of them to
    one of six values. *)
Lemma abuse_score_values now user tenant :
  abuse_score (_calculate_scores now user tenant)
  ∈ [0; 0.3; 0.4; 0.7; 0.8; 1]%float.
Proof.
  unfold _calculate_scores. cbn [abuse_score].
  destruct (Py.gt _ (max_api_rate tenant)), (repetitive _),
    (Py.gt (estimated_cost user) _); vm_compute; set_solver.
Qed.

Lemma in_unit_interval_values (x : float) :
  x ∈ [0; 0.3; 0.4; 0.7; 0.8; 1]%float -> in_unit_interval x.
Proof.
  rewrite !elem_of_cons, elem_of_nil.
  intros [->|[->|[->|[->|[->|[->|[]]]]]]]; split; reflexivity.
Qed.

(** C4. [_calculate_scores] sets [abuse_score] to [min(s, 1.0)], where [s]
    adds 0.4 when the API rate (events per minute since creation, the
    minutes floored at 0.1) exceeds the tenant's limit, 0.3 when the
    sequence has at least five entries and its last five are identical,
    and 0.4 when the estimated cost exceeds the tenant's limit; it then
    sets [roi_score] to (feature_value - estimated_cost) * (1 - abuse_score),
    unclamped. *)
Theorem calculate_scores_spec now user tenant :
  abuse_score (_calculate_scores now user tenant) = Spec.abuseScore now user tenant
  ∧ roi_score (_calculate_scores now user tenant) = Spec.roiScore now user tenant.
Proof.
  assert (abuse_score (_calculate_scores now user tenant)
          = Spec.abuseScore now user tenant) as Habuse.
  { unfold _calculate_scores, Spec.abuseScore, Spec.abuse_sum, Spec.signal.
    cbn [abuse_score]. rewrite <- repetitive_spec.
    fold (Spec.minutes_since_created now user).
    fold (Spec.rate_exceeded now user tenant). fold (Spec.cost_exceeded user tenant).
    destruct (Spec.rate_exceeded now user tenant),
      (repetitive (feature_sequence user)), (Spec.cost_exceeded user tenant);
      reflexivity. }
  split; [exact Habuse|].
  unfold Spec.roiScore. rewrite <- Habuse. reflexivity.
Qed.

(** C3 fails as stated: [_calculate_scores] reads the clock, so two calls
    in a row need not agree.  A user created at time 0 who has sent six
    events of alternating types gets the rate signal at time 6 (six events
    in the floored 0.1 minute) and loses it at time 60. *)
Lemma calculate_scores_clock_dependent :
  let tenant := TenantConfig_init "Tenant_A" in
  let first := _calculate_scores 6 busy_user tenant in
  let second := _calculate_scores 60 first tenant in
  abuse_score first = 0.4%float ∧ abuse_score second = 0%float
  ∧ abuse_score second ≠ abuse_score first
  ∧ roi_score second ≠ roi_score first.
Proof.
  cbv zeta. split; [reflexivity|]. split; [reflexivity|]. split.
  - intros H. apply (f_equal Prim2SF) in H. vm_compute in H. discriminate.
  - intros H. apply (f_equal Prim2SF) in H. vm_compute in H. discriminate.
Qed.

(** What [_calculate_scores] reads: the creation time, the event
    count, the event-type window and the two running sums.  It reads
    neither score. *)
Lemma calculate_scores_reads now tenant (u1 u2 : TrialUser) :
  created_at u1 = created_at u2 ->
  api_count u1 = api_count u2 ->
  feature_sequence u1 = feature_sequence u2 ->
  estimated_cost u1 = estimated_cost u2 ->
  feature_value u1 = feature_value u2 ->
  abuse_score (_calculate_scores now u1 tenant)
  = abuse_score (_calculate_scores now u2 tenant)
  ∧ roi_score (_calculate_scores now u1 tenant)
    = roi_score (_calculate_scores now u2 tenant).
Proof.
  intros Hcreated Hcount Hseq Hcost Hvalue.
  unfold _calculate_scores. cbn [abuse_score roi_score].
  by rewrite Hcreated, Hcount, Hseq, Hcost, Hvalue.
Qed.

(** C3, amended. Both scores are a function of the profile, the policy
    and the clock value read by the call: a second call that reads the
    same clock value yields the same abuse score and the same ROI score,
    and leaves the profile as the first call left it. *)
Theorem calculate_scores_idempotent_same_clock now user tenant :
  let once := _calculate_scores now user tenant in
  let twice := _calculate_scores now once tenant in
  abuse_score twice = abuse_score once
  ∧ roi_score twice = roi_score once
  ∧ twice = once.
Proof.
  cbv zeta.
  destruct (calculate_scores_reads now tenant
              (_calculate_scores now user tenant) user) as [Habuse Hroi];
    try reflexivity.
  split; [exact Habuse|]. split; [exact Hroi|reflexivity].
Qed.

(** C5. From the creation of a user on, after every sequence of
    [add_event] and [_calculate_scores] calls, 0 <= abuse_score <= 1. *)
Theorem abuse_score_in_unit_interval
    (t_created t_active : float) (tenant_name uid utype : string)
    (cs : list UserCall) :
  in_unit_interval
    (abuse_score (run_calls cs (TrialUser_init t_created t_active tenant_name uid utype))).
Proof.
  unfold run_calls.
  induction cs as [|c cs IH] using rev_ind.
  - split; reflexivity.
  - rewrite fold_left_app. cbn [fold_left].
    destruct c as [now ety rid cost value|now tenant]; cbn [apply_call].
    + exact IH.
    + apply in_unit_interval_values, abuse_score_values.
Qed.

End Scoring.

(** ** Event tracking *)

Section EventTracking.

Implicit Types (user : TrialUser) (now cost value : float).

Lemma run_calls_snoc (cs : list UserCall) (c : UserCall) user :
  run_calls (cs ++ [c]) user = apply_call (run_calls cs user) c.
Proof. unfold run_calls. by rewrite fold_left_app. Qed.

Lemma event_types_snoc (cs : list UserCall) (c : UserCall) :
  event_types (cs ++ [c]) = event_types cs ++ event_types [c].
Proof. unfold event_types. apply omap_app. Qed.

(** One append with eviction keeps the window on the last ten entries
    of the history. *)
Lemma window_step (history : list string) (x : string) :
  let appended := drop (length history - 10) history ++ [x] in
  (if decide (10 < length appended) then Py.pop0 appended else appended)
  = drop (length (history ++ [x]) - 10) (history ++ [x]).
Proof.
  cbv zeta. rewrite !length_app, length_drop. cbn [length].
  destruct (decide (length history < 10)) as [Hshort|Hlong].
  - replace (length history - 10) with 0 by lia.
    replace (length history + 1 - 10) with 0 by lia.
    rewrite !drop_0. case_decide; [lia|done].
  - case_decide; [|lia].
    replace (length history + 1 - 10) with (S (length history - 10)) by lia.
    rewrite drop_app_le by lia.
    destruct (drop (length history - 10) history) as [|y rest] eqn:Hd.
    + apply (f_equal length) in Hd. rewrite length_drop in Hd. simpl in Hd. lia.
    + unfold Py.pop0. cbn [app tail]. f_equal.
      rewrite <- (Nat.add_1_r (length history - 10)).
      by rewrite <- (drop_drop history 1 (length history - 10)), Hd.
Qed.

Lemma feature_sequence_window (cs : list UserCall) user :
  feature_sequence user = [] ->
  feature_sequence (run_calls cs user)
  = drop (length (event_types cs) - 10) (event_types cs).
Proof.
  intros Hfresh. induction cs as [|c cs IH] using rev_ind; [done|].
  rewrite run_calls_snoc, event_types_snoc.
  destruct c as [now ety rid cost value|now tenant]; cbn [apply_call].
  - unfold add_event. cbn [feature_sequence]. rewrite IH.
    apply window_step.
  - cbn [_calculate_scores feature_sequence event_types omap].
    by rewrite app_nil_r.
Qed.

(** C6. From the creation of a user on, after every sequence of calls
    [feature_sequence] holds at most 10 entries, and they are the event
    types of the most recent (at most 10) [add_event] calls in arrival
    order: the oldest entry is the one evicted. *)
Theorem feature_sequence_last_ten
    (t_created t_active : float) (tenant_name uid utype : string)
    (cs : list UserCall) :
  let user := run_calls cs (TrialUser_init t_created t_active tenant_name uid utype) in
  length (feature_sequence user) ≤ 10
  ∧ feature_sequence user
    = drop (length (event_types cs) - 10) (event_types cs).
Proof.
  cbv zeta. rewrite feature_sequence_window by done.
  split; [|done]. rewrite length_drop. lia.
Qed.

Lemma add_to_last_snoc (x d : float) (l : list float) :
  Py.add_to_last x (l ++ [d]) = l ++ [(d + x)%float].
Proof.
  unfold Py.add_to_last. rewrite last_snoc, length_app. cbn [length].
  replace (length l + 1 - 1) with (length l + 0) by lia.
  by rewrite insert_app_r.
Qed.

Lemma snoc_cases {A} (l : list A) : l = [] ∨ ∃ front x, l = front ++ [x].
Proof. induction l as [|x l _] using rev_ind; [by left|right; eauto]. Qed.

(** One [add_event] with a gap that is not negative keeps the entries
    non-negative. *)
Lemma add_event_nonneg user now (ety : string) (rid : option string) cost value :
  (0 <=? now - last_active user)%float = true ->
  Forall (fun d => (0 <=? d)%float = true) (session_durations user) ->
  Forall (fun d => (0 <=? d)%float = true)
         (session_durations (add_event now ety rid cost value user)).
Proof.
  intros Hgap Hsd. unfold add_event. cbn [session_durations].
  destruct (Py.gt (now - last_active user) 300).
  - apply Forall_app. split; [done|]. by repeat constructor.
  - destruct (snoc_cases (session_durations user)) as [->|(front & d & Hd)];
      [constructor|].
    rewrite Hd in Hsd |- *. apply Forall_app in Hsd as [Hfront Hlast].
    apply (proj1 (Forall_singleton _ _)) in Hlast.
    destruct front; cbn [app]; rewrite <- ?app_comm_cons;
      [rewrite (add_to_last_snoc _ d [])
      |rewrite (add_to_last_snoc _ d (f :: front))];
      (apply Forall_app; split; [done|]);
      apply Forall_singleton; by apply add_nonneg.
Qed.

Lemma run_calls_nonneg (cs : list UserCall) user :
  gaps_nonneg (last_active user) cs ->
  Forall (fun d => (0 <=? d)%float = true) (session_durations user) ->
  Forall (fun d => (0 <=? d)%float = true)
         (session_durations (run_calls cs user)).
Proof.
  revert user. induction cs as [|c cs IH]; intros user Hgaps Hsd; [done|].
  change (run_calls (c :: cs) user) with (run_calls cs (apply_call user c)).
  destruct c as [now ety rid cost value|now tenant]; cbn [gaps_nonneg] in Hgaps.
  - destruct Hgaps as [Hgap Hgaps]. apply IH; [exact Hgaps|].
    by apply add_event_nonneg.
  - by apply IH.
Qed.

(** C8 fails as stated: [add_event] adds the gap to the running session
    unclamped, so an event stamped before [last_active] can make an
    entry negative.  A user created at time 1000 with an event at 1400
    and then one at 1300 ends with the single entry -100. *)
Lemma session_duration_clock_step_back :
  let user := add_event 1300 "LOGIN" None 0.05 0.1
                (add_event 1400 "LOGIN" None 0.05 0.1
                   (TrialUser_init 1000 1000 "Tenant_A" "u1" "NORMAL")) in
  session_durations user = [(-100)%float]
  ∧ ¬ Forall (fun d => (0 <=? d)%float = true) (session_durations user).
Proof.
  cbv zeta. split; [reflexivity|].
  intros H. apply (proj1 (Forall_singleton _ _)) in H.
  vm_compute in H. discriminate.
Qed.

(** C8, amended. The first [add_event] on a new user leaves
    [session_durations] empty or equal to [[0]], with no negative entry;
    and from the creation of a user on, no entry is ever negative as
    long as no event is stamped before the activity time it finds
    (every gap [now - last_active] is at least 0).  In general, with
    [gap = now - last_active]: when [gap > 300] a 0 entry is appended;
    when [gap <= 300] and a last entry exists, the gap is added to it;
    when [gap <= 300] and there is no entry, none is created. *)
Theorem session_durations_add_event :
  (∀ (t_created t_active : float) (tenant_name uid utype : string)
     now (event_type : string) (resource_id : option string) cost value,
     let user := add_event now event_type resource_id cost value
                   (TrialUser_init t_created t_active tenant_name uid utype) in
     (session_durations user = [] ∨ session_durations user = [0%float])
     ∧ Forall (fun d => (0 <=? d)%float = true) (session_durations user))
  ∧ (∀ (t_created t_active : float) (tenant_name uid utype : string)
       (cs : list UserCall),
       gaps_nonneg t_active cs ->
       Forall (fun d => (0 <=? d)%float = true)
              (session_durations
                 (run_calls cs (TrialUser_init t_created t_active
                                               tenant_name uid utype))))
  ∧ (∀ user now (event_type : string) (resource_id : option string) cost value,
       let gap := (now - last_active user)%float in
       let after := session_durations
                      (add_event now event_type resource_id cost value user) in
       ((300 <? gap)%float = true -> after = session_durations user ++ [0%float])
       ∧ ((gap <=? 300)%float = true ->
          ∀ earlier d, session_durations user = earlier ++ [d] ->
                       after = earlier ++ [(d + gap)%float])
       ∧ ((gap <=? 300)%float = true ->
          session_durations user = [] -> after = [])).
Proof.
  split; [|split].
  - intros t_created t_active tenant_name uid utype now ety rid cost value.
    cbv zeta. unfold add_event, TrialUser_init, Py.gt.
    cbn [session_durations last_active].
    destruct (300 <? now - t_active)%float.
    + split; [by right|]. by repeat constructor.
    + split; [by left|]. constructor.
  - intros t_created t_active tenant_name uid utype cs Hgaps.
    apply run_calls_nonneg; [exact Hgaps|constructor].
  - intros user now ety rid cost value. cbv zeta.
    unfold add_event, Py.gt. cbn [session_durations].
    split; [|split].
    + by intros ->.
    + intros Hle%leb_not_gt earlier d Hsd. rewrite Hle, Hsd.
      destruct earlier; cbn [app]; rewrite <- ?app_comm_cons;
        [apply (add_to_last_snoc _ d [])|].
      apply (add_to_last_snoc _ d (f :: earlier)).
    + intros Hle%leb_not_gt Hsd. by rewrite Hle, Hsd.
Qed.

Lemma session_durations_add_event_witness :
  let first := add_event 1000 "LOGIN" None 0.05 0.1
                 (TrialUser_init 0 0 "Tenant_A" "u1" "NORMAL") in
  let user := add_event 1200 "LOGIN" None 0.05 0.1
                (add_event 1100 "LOGIN" None 0.05 0.1 first) in
  session_durations user = [200%float]
  ∧ Forall (fun d => (0 <=? d)%float = true)
           (session_durations
              (run_calls [CallAddEvent 1000 "LOGIN" None 0.05 0.1;
                          CallAddEvent 1100 "LOGIN" None 0.05 0.1;
                          CallCalculate 1100 (TenantConfig_init "Tenant_A");
                          CallAddEvent 1200 "LOGIN" None 0.05 0.1]
                         (TrialUser_init 0 0 "Tenant_A" "u1" "NORMAL"))).
Proof.
  cbv zeta. split.
  - pose proof (proj2 (proj2 session_durations_add_event)
      (add_event 1100 "LOGIN" None 0.05 0.1
         (add_event 1000 "LOGIN" None 0.05 0.1
            (TrialUser_init 0 0 "Tenant_A" "u1" "NORMAL")))
      1200%float "LOGIN" None 0.05%float 0.1%float) as [_ [Hextend _]].
    exact (Hextend eq_refl [] 100%float eq_refl).
  - apply (proj1 (proj2 session_durations_add_event)
             0%float 0%float "Tenant_A" "u1" "NORMAL").
    cbn [gaps_nonneg]. repeat split; reflexivity.
Defined.

End EventTracking.

(** ** Decision policy *)

Section DecisionPolicy.

Implicit Types (user : TrialUser) (tenant : TenantConfig) (mon : ResourceMonitor).

(** A value above 10 is above 5 and not below -5. *)
Lemma above_ten (r : float) :
  (10 <? r)%float = true -> (5 <? r)%float = true ∧ (r <? -5)%float = false.
Proof.
  rewrite !ltb_spec. unfold SFltb.
  change (Prim2SF 10) with (S754_finite false 5629499534213120 (-49)).
  change (Prim2SF 5) with (S754_finite false 5629499534213120 (-50)).
  change (Prim2SF (-5)) with (S754_finite true 5629499534213120 (-50)).
  destruct (Prim2SF r) as [s|s| |s m e]; unfold SFcompare;
    try destruct s; try discriminate; try (split; reflexivity).
  destruct (Z.compare_spec (-49) e) as [<-|Hlt|Hgt]; try discriminate.
  - intros _. split; reflexivity.
  - intros _. split; [|reflexivity].
    destruct (Z.compare_spec (-50) e); [lia|reflexivity|lia].
Qed.

(** C7. Whenever [abuse_score >= abuse_threshold], [_make_decision]
    returns the outcome of the abuse gate: BLOCK with the two formatted
    reasons when [roi_score < -5], else THROTTLE when [roi_score > 5],
    else BLOCK; no later rule runs (the resource monitor is not
    consulted), and the decision is never FLAG_SALES: a user who also
    meets the sales condition ([roi_score > 10] and [abuse_score < 0.2])
    is throttled. *)
Theorem make_decision_abuse_gate_first mon user tenant :
  Py.ge (abuse_score user) (abuse_threshold tenant) = true ->
  _make_decision mon user tenant = (Spec.abuse_gate_outcome user, mon)
  ∧ (Spec.abuse_gate_outcome user).1 ≠ DECISION_FLAG_SALES
  ∧ ((10 <? roi_score user)%float = true ->
     (abuse_score user <? 0.2)%float = true ->
     _make_decision mon user tenant
     = ((DECISION_THROTTLE, ["High Volume but High Value"]), mon)).
Proof.
  intros Hgate. unfold _make_decision, Spec.abuse_gate_outcome, Py.lt, Py.gt.
  rewrite Hgate. split; [|split].
  - by destruct (roi_score user <? -5)%float, (5 <? roi_score user)%float.
  - by destruct (roi_score user <? -5)%float, (5 <? roi_score user)%float.
  - intros [Hfive Hneg]%above_ten _. by rewrite Hneg, Hfive.
Qed.

Lemma make_decision_abuse_gate_first_witness :
  _make_decision ResourceMonitor_init costly_user (TenantConfig_init "Tenant_A")
  = ((DECISION_BLOCK,
      ["Critical Abuse Score (0.70)"; "Negative ROI (-7.35)"]),
     ResourceMonitor_init)
  ∧ _make_decision ResourceMonitor_init valuable_user lenient_tenant
    = ((DECISION_THROTTLE, ["High Volume but High Value"]),
       ResourceMonitor_init).
Proof.
  split.
  - exact (proj1 (make_decision_abuse_gate_first ResourceMonitor_init
                    costly_user (TenantConfig_init "Tenant_A") eq_refl)).
  - exact (proj2 (proj2 (make_decision_abuse_gate_first
                           ResourceMonitor_init valuable_user lenient_tenant
                           eq_refl))
                 eq_refl eq_refl).
Defined.

End DecisionPolicy.

(** ** Resource monitor *)

Section Monitor.

Implicit Types (mon : ResourceMonitor) (rid : string) (now : float).

Lemma get_load_count rid mon : (get_load rid mon).1 = length (retained rid mon).
Proof.
  unfold get_load, defaultdict_getitem, retained.
  by destruct (usage_log mon !! rid).
Qed.

Lemma get_load_retained rid rid' mon :
  retained rid' (get_load rid mon).2 = retained rid' mon.
Proof.
  unfold get_load, defaultdict_getitem, retained.
  destruct (usage_log mon !! rid) eqn:Hrid; cbn [snd usage_log]; [done|].
  destruct (decide (rid = rid')) as [<-|Hne].
  - by rewrite lookup_insert_eq, Hrid.
  - by rewrite lookup_insert_ne.
Qed.

Lemma log_usage_retained_eq rid now mon :
  retained rid (log_usage now rid mon)
  = List.filter (fun t => Py.lt (now - t) 60) (retained rid mon ++ [now]).
Proof.
  unfold log_usage, defaultdict_getitem, retained.
  destruct (usage_log mon !! rid) eqn:Hrid;
    rewrite lookup_insert_eq; cbn [usage_log]; by rewrite lookup_insert_eq.
Qed.

Lemma log_usage_retained_ne rid rid' now mon :
  rid ≠ rid' -> retained rid' (log_usage now rid mon) = retained rid' mon.
Proof.
  intros Hne. unfold log_usage, defaultdict_getitem, retained.
  destruct (usage_log mon !! rid) eqn:Hrid;
    rewrite lookup_insert_eq; cbn [usage_log];
    by rewrite !lookup_insert_ne.
Qed.

Lemma filter_within_window now (l : list float) :
  Forall (within_window now) (List.filter (fun t => Py.lt (now - t) 60) l).
Proof.
  apply Forall_forall. intros t Ht%list_elem_of_In.
  apply filter_In in Ht as [_ Ht]. unfold Py.lt in Ht.
  split; [done | by apply ltb_asym].
Qed.

Lemma run_monitor_snoc (cs : list MonitorCall) (c : MonitorCall) mon :
  run_monitor (cs ++ [c]) mon = apply_monitor_call (run_monitor cs mon) c.
Proof. unfold run_monitor. by rewrite fold_left_app. Qed.

Lemma last_logged_snoc rid (cs : list MonitorCall) (c : MonitorCall) :
  last_logged rid (cs ++ [c])
  = match c with
    | CallLogUsage now r =>
        if decide (r = rid) then Some now else last_logged rid cs
    | CallGetLoad _ => last_logged rid cs
    end.
Proof. unfold last_logged. by rewrite fold_left_app. Qed.

(** After any calls, what the monitor holds for a resource was filtered
    at the most recent [log_usage] of that resource, and is what it held
    at the start when there was none. *)
Lemma retained_since_last_logged (cs : list MonitorCall) rid mon :
  match last_logged rid cs with
  | Some t0 => Forall (within_window t0) (retained rid (run_monitor cs mon))
  | None => retained rid (run_monitor cs mon) = retained rid mon
  end.
Proof.
  induction cs as [|c cs IH] using rev_ind; [done|].
  rewrite run_monitor_snoc, last_logged_snoc.
  destruct c as [now r|r]; cbn [apply_monitor_call].
  - case_decide as Hr.
    + subst r. rewrite log_usage_retained_eq. apply filter_within_window.
    + by rewrite log_usage_retained_ne.
  - by rewrite get_load_retained.
Qed.

(** C9. [log_usage] appends the clock value to the list of the resource
    and then keeps the entries less than 60 seconds old, so right after
    the call no retained entry is older than 60 seconds.  [get_load]
    returns the length of the retained list and retains the same list
    (it does not prune); after any sequence of calls, the entries it
    counts for a resource are all within 60 seconds of the most recent
    [log_usage] of that resource. *)
Theorem get_load_counts_last_window :
  (∀ mon rid now,
     retained rid (log_usage now rid mon)
     = List.filter (fun t => Py.lt (now - t) 60) (retained rid mon ++ [now])
     ∧ Forall (within_window now) (retained rid (log_usage now rid mon)))
  ∧ (∀ mon0 (cs : list MonitorCall) rid,
       let mon := run_monitor cs mon0 in
       (get_load rid mon).1 = length (retained rid mon)
       ∧ retained rid (get_load rid mon).2 = retained rid mon
       ∧ match last_logged rid cs with
         | Some t0 => Forall (within_window t0) (retained rid mon)
         | None => retained rid mon = retained rid mon0
         end).
Proof.
  split.
  - intros mon rid now. split; [apply log_usage_retained_eq|].
    rewrite log_usage_retained_eq. apply filter_within_window.
  - intros mon0 cs rid. cbv zeta.
    split; [apply get_load_count|]. split; [apply get_load_retained|].
    apply retained_since_last_logged.
Qed.

(** C10. [get_load] returns a count for every resource id and raises
    nothing: on the session's monitor the call always returns.  For a
    resource id that no [log_usage] call has named, the count is 0. *)
Theorem get_load_total :
  (∀ rid (m : Machine), ∃ n m', monitor_get_load rid m = (Return n, m'))
  ∧ (∀ rid mon, usage_log mon !! rid = None -> (get_load rid mon).1 = 0)
  ∧ (∀ (cs : list MonitorCall) rid,
       last_logged rid cs = None ->
       (get_load rid (run_monitor cs ResourceMonitor_init)).1 = 0).
Proof.
  split; [|split].
  - intros rid m. unfold monitor_get_load, gets, modify, mbind, Run_bind, mret, Run_ret.
    destruct (get_load rid (resource_monitor (session m))) as [n mon']. eauto.
  - intros rid mon Hnone. rewrite get_load_count. unfold retained. by rewrite Hnone.
  - intros cs rid Hnever. rewrite get_load_count.
    pose proof (retained_since_last_logged cs rid ResourceMonitor_init) as Hret.
    rewrite Hnever in Hret. by rewrite Hret.
Qed.

Lemma get_load_total_witness :
  (get_load "DB_SHARD_1" ResourceMonitor_init).1 = 0
  ∧ (get_load "DB_SHARD_1"
       (run_monitor [CallLogUsage 10 "API_GATEWAY"; CallGetLoad "DB_SHARD_1";
                     CallLogUsage 20 "API_GATEWAY"]
                    ResourceMonitor_init)).1 = 0.
Proof.
  split.
  - exact (proj1 (proj2 get_load_total) "DB_SHARD_1" ResourceMonitor_init eq_refl).
  - exact (proj2 (proj2 get_load_total)
             [CallLogUsage 10 "API_GATEWAY"; CallGetLoad "DB_SHARD_1";
              CallLogUsage 20 "API_GATEWAY"] "DB_SHARD_1" eq_refl).
Defined.

End Monitor.

(** ** The orchestrator *)

Section Orchestrator.

Implicit Types (m : Machine).

Lemma process_event_unknown_tenant_new_user
    (tid uid ety : string) (rid : option string) (utype : string) m :
  tenants (session m) !! tid = None ->
  users (session m) !! uid = None ->
  let t_created := clock (world m) (ticks (world m)) in
  let t_active := clock (world m) (S (ticks (world m))) in
  let '(out, m') := process_event tid uid ety rid utype m in
  out = Raise (KeyError tid)
  ∧ users (session m')
    = <[uid := TrialUser_init t_created t_active tid uid utype]> (users (session m)).
Proof.
  intros Htenant Huser. cbv zeta.
  unfold process_event, mbind, Run_bind, gets, modify, time_time, dict_getitem,
    mret, Run_ret, raise.
  cbn [session world users tenants set_users clock ticks].
  rewrite decide_True by done.
  cbn [session world users tenants set_users clock ticks].
  rewrite lookup_insert_eq.
  cbn [session world users tenants set_users clock ticks].
  rewrite Htenant. done.
Qed.

Lemma process_event_unknown_tenant_known_user
    (tid uid ety : string) (rid : option string) (utype : string) m :
  tenants (session m) !! tid = None ->
  is_Some (users (session m) !! uid) ->
  process_event tid uid ety rid utype m = (Raise (KeyError tid), m).
Proof.
  intros Htenant [u Huser].
  unfold process_event, mbind, Run_bind, gets, modify, time_time, dict_getitem,
    mret, Run_ret, raise.
  rewrite decide_False by (rewrite Huser; done).
  by rewrite Huser, Htenant.
Qed.

(** C1 fails on the code: the user is created before the tenant is
    looked up.  On the engine as initialised, an event for the tenant
    ["Tenant_Z"], which is not registered, raises [KeyError] and leaves a
    profile for ["u1"] in the user registry, bound to that tenant. *)
Theorem process_event_unknown_tenant_leaves_user :
  let '(out, m') :=
    process_event "Tenant_Z" "u1" "LOGIN" None "NORMAL" (fresh_machine 0.5) in
  tenants (session (fresh_machine 0.5)) !! "Tenant_Z" = None
  ∧ users (session (fresh_machine 0.5)) !! "u1" = None
  ∧ out = Raise (KeyError "Tenant_Z")
  ∧ users (session m') !! "u1"
    = Some (TrialUser_init 1000 1001 "Tenant_Z" "u1" "NORMAL").
Proof. vm_compute. done. Qed.

End Orchestrator.

(** ** Determinism up to the oracles *)

Section Determinism.

Lemma det_ret {A} (a : A) : deterministic (mret a).
Proof. intros m1 m2 H. done. Qed.

Lemma det_raise {A} (e : Exn) : deterministic (@raise A e).
Proof. intros m1 m2 H. done. Qed.

Lemma det_bind {A B} (c : Run A) (f : A -> Run B) :
  deterministic c -> (∀ a, deterministic (f a)) -> deterministic (c ≫= f).
Proof.
  intros Hc Hf m1 m2 H. unfold mbind, Run_bind.
  destruct (Hc m1 m2 H) as [Hout Hagree].
  destruct (c m1) as [[a1|e1] m1'], (c m2) as [[a2|e2] m2'];
    cbn [fst snd] in *; try discriminate.
  - injection Hout as ->. by apply Hf.
  - injection Hout as ->. done.
Qed.

Lemma det_gets {A} (f : SessionState -> A) : deterministic (gets f).
Proof.
  intros m1 m2 H. unfold gets. cbn [fst snd].
  split; [|done]. destruct H as [-> _]. done.
Qed.

Lemma det_modify (f : SessionState -> SessionState) : deterministic (modify f).
Proof.
  intros m1 m2 (Hs & Hc & Hr). unfold modify, agree. cbn [fst snd session world].
  by rewrite Hs.
Qed.

Lemma det_time_time : deterministic time_time.
Proof.
  intros m1 m2 (Hs & Hc & Hr). unfold time_time, agree, same_readings, same_draws.
  cbn [fst snd session world clock ticks rand draws]. split; [|split; [done|split; [|done]]].
  - f_equal. specialize (Hc 0). by rewrite !Nat.add_0_r in Hc.
  - intros i. specialize (Hc (S i)).
    by rewrite <- !Nat.add_succ_comm in Hc.
Qed.

Lemma det_random_random : deterministic random_random.
Proof.
  intros m1 m2 (Hs & Hc & Hr). unfold random_random, agree, same_readings, same_draws.
  cbn [fst snd session world clock ticks rand draws]. split; [|split; [done|split; [done|]]].
  - f_equal. specialize (Hr 0). by rewrite !Nat.add_0_r in Hr.
  - intros i. specialize (Hr (S i)).
    by rewrite <- !Nat.add_succ_comm in Hr.
Qed.

Lemma det_random_uniform (a b : float) : deterministic (random_uniform a b).
Proof.
  unfold random_uniform. apply det_bind; [apply det_random_random|].
  intros r. apply det_ret.
Qed.

Lemma det_dict_getitem {V} (d : gmap string V) (k : string) :
  deterministic (dict_getitem d k).
Proof. unfold dict_getitem. destruct (d !! k); [apply det_ret|apply det_raise]. Qed.

Lemma det_update_user (uid : string) (f : TrialUser -> TrialUser) :
  deterministic (update_user uid f).
Proof. apply det_modify. Qed.

Create HintDb det.

#[local] Hint Resolve det_ret det_raise det_gets det_modify det_time_time
  det_random_uniform det_dict_getitem det_update_user : det.

(** One step of a determinism proof: split a bind, or case on the test
    or the pair that the next command depends on. *)
Ltac det_step :=
  match goal with
  | |- deterministic (_ ≫= _) => apply det_bind; [|intros ?]
  | |- deterministic (if decide ?P then _ else _) => destruct (decide P)
  | |- deterministic (if ?b then _ else _) => destruct b
  | |- deterministic (match ?o with Some _ => _ | None => _ end) => destruct o
  | |- deterministic (let '(_, _) := ?p in _) => destruct p
  | |- deterministic _ => solve [auto with det]
  end.

Lemma det_monitor_log_usage (r : string) : deterministic (monitor_log_usage r).
Proof. unfold monitor_log_usage. repeat det_step. Qed.

Lemma det_monitor_get_load (r : string) : deterministic (monitor_get_load r).
Proof. unfold monitor_get_load. repeat det_step. Qed.

#[local] Hint Resolve det_monitor_log_usage det_monitor_get_load : det.

Lemma det_simulate_cost_value (ety : string) (rid : option string) :
  deterministic (simulate_cost_value ety rid).
Proof. unfold simulate_cost_value. repeat det_step. Qed.

#[local] Hint Resolve det_simulate_cost_value : det.

Lemma det_process_event (tid uid ety : string) (rid : option string)
    (utype : string) :
  deterministic (process_event tid uid ety rid utype).
Proof. unfold process_event. repeat det_step. Qed.

(** C2 fails as stated: the cost of an ["API_CALL"] event is drawn from
    the random generator.  Two runs from the same session, with the same
    arguments and the same clock, whose generators draw 0 and 0.5, derive
    the costs 0.1 and 0.30000000000000004 and leave different sessions. *)
Lemma process_event_depends_on_draw :
  let run r := process_event "Tenant_A" "u1" "API_CALL" None "NORMAL"
                 (fresh_machine r) in
  session (fresh_machine 0) = session (fresh_machine 0.5)
  ∧ clock (world (fresh_machine 0)) = clock (world (fresh_machine 0.5))
  ∧ ticks (world (fresh_machine 0)) = ticks (world (fresh_machine 0.5))
  ∧ (simulate_cost_value "API_CALL" None (fresh_machine 0)).1
    = Return (0.1, 0.1)%float
  ∧ (simulate_cost_value "API_CALL" None (fresh_machine 0.5)).1
    = Return (0.30000000000000004, 0.1)%float
  ∧ (estimated_cost <$> users (session (run 0%float).2) !! "u1")
    = Some 0.1%float
  ∧ (estimated_cost <$> users (session (run 0.5%float).2) !! "u1")
    = Some 0.30000000000000004%float
  ∧ session (run 0%float).2 ≠ session (run 0.5%float).2.
Proof.
  cbv zeta. repeat (split; [reflexivity|]).
  intros H.
  apply (f_equal (fun s => Prim2SF <$> (estimated_cost <$> users s !! "u1"))) in H.
  vm_compute in H. discriminate.
Qed.

(** C2, amended. [process_event] is deterministic once the draws of the
    random generator are fixed as well: two runs that start from the same
    session state, receive the same arguments, read the same clock values
    and draw the same random values derive the same cost and value, and
    end with the same outcome (the same decision, or the same exception)
    and the same session state. *)
Theorem process_event_deterministic
    (tid uid ety : string) (rid : option string) (utype : string)
    (m1 m2 : Machine) :
  session m1 = session m2 ->
  same_readings (world m1) (world m2) ->
  same_draws (world m1) (world m2) ->
  (simulate_cost_value ety rid m1).1 = (simulate_cost_value ety rid m2).1
  ∧ (process_event tid uid ety rid utype m1).1
    = (process_event tid uid ety rid utype m2).1
  ∧ session (process_event tid uid ety rid utype m1).2
    = session (process_event tid uid ety rid utype m2).2.
Proof.
  intros Hs Hc Hr.
  assert (agree m1 m2) as Hagree by done.
  destruct (det_simulate_cost_value ety rid m1 m2 Hagree) as [Hcv _].
  destruct (det_process_event tid uid ety rid utype m1 m2 Hagree)
    as [Hout [Hsession _]].
  done.
Qed.

Lemma process_event_deterministic_witness :
  (simulate_cost_value "API_CALL" (Some "API_GATEWAY") early_machine).1
  = (simulate_cost_value "API_CALL" (Some "API_GATEWAY") shifted_machine).1
  ∧ (process_event "Tenant_A" "u1" "API_CALL" (Some "API_GATEWAY") "NORMAL"
       early_machine).1
    = (process_event "Tenant_A" "u1" "API_CALL" (Some "API_GATEWAY") "NORMAL"
         shifted_machine).1
  ∧ session (process_event "Tenant_A" "u1" "API_CALL" (Some "API_GATEWAY")
               "NORMAL" early_machine).2
    = session (process_event "Tenant_A" "u1" "API_CALL" (Some "API_GATEWAY")
                 "NORMAL" shifted_machine).2.
Proof.
  apply (process_event_deterministic "Tenant_A" "u1" "API_CALL"
           (Some "API_GATEWAY") "NORMAL" early_machine shifted_machine).
  - reflexivity.
  - intros i. reflexivity.
  - intros i. reflexivity.
Defined.

End Determinism.

(** ** Symbolic execution of the engine monad *)

Section Returns.

Implicit Types (m : Machine).

Lemma returns_ret {A} (a : A) m (Q : A -> Machine -> Prop) :
  Q a m -> returns (mret a) m Q.
Proof. intros HQ. by exists a, m. Qed.

Lemma returns_bind {A B} (c : Run A) (f : A -> Run B) m
    (Q : B -> Machine -> Prop) :
  returns c m (fun a m1 => returns (f a) m1 Q) -> returns (c ≫= f) m Q.
Proof.
  intros (a & m1 & Hc & b & m2 & Hf & HQ). exists b, m2. split; [|done].
  unfold mbind, Run_bind. by rewrite Hc.
Qed.

Lemma returns_gets {A} (f : SessionState -> A) m (Q : A -> Machine -> Prop) :
  Q (f (session m)) m -> returns (gets f) m Q.
Proof. intros HQ. by eexists _, _. Qed.

Lemma returns_modify (f : SessionState -> SessionState) m
    (Q : () -> Machine -> Prop) :
  Q () {| world := world m; session := f (session m) |} ->
  returns (modify f) m Q.
Proof. intros HQ. by eexists _, _. Qed.

Lemma returns_time_time m (Q : float -> Machine -> Prop) :
  Q (clock (world m) (ticks (world m)))
    {| world := {| clock := clock (world m); ticks := S (ticks (world m));
                   rand := rand (world m); draws := draws (world m) |};
       session := session m |} ->
  returns time_time m Q.
Proof. intros HQ. by eexists _, _. Qed.

Lemma returns_random_uniform (a b : float) m (Q : float -> Machine -> Prop) :
  Q (a + (b - a) * rand (world m) (draws (world m)))%float
    {| world := {| clock := clock (world m); ticks := ticks (world m);
                   rand := rand (world m); draws := S (draws (world m)) |};
       session := session m |} ->
  returns (random_uniform a b) m Q.
Proof. intros HQ. by eexists _, _. Qed.

Lemma returns_dict_getitem {V} (d : gmap string V) (k : string) (v : V) m
    (Q : V -> Machine -> Prop) :
  d !! k = Some v -> Q v m -> returns (dict_getitem d k) m Q.
Proof. intros Hk HQ. exists v, m. unfold dict_getitem. by rewrite Hk. Qed.

Lemma returns_update_user (uid : string) (f : TrialUser -> TrialUser) m
    (Q : () -> Machine -> Prop) :
  Q () {| world := world m;
          session := set_users (fun us => match us !! uid with
                                          | Some u => <[uid := f u]> us
                                          | None => us
                                          end) (session m) |} ->
  returns (update_user uid f) m Q.
Proof. intros HQ. by eexists _, _. Qed.

Lemma returns_mono {A} (c : Run A) m (Q Q' : A -> Machine -> Prop) :
  returns c m Q -> (∀ a m', Q a m' -> Q' a m') -> returns c m Q'.
Proof. intros (a & m' & Hc & HQ) Himp. exists a, m'. auto. Qed.

End Returns.

(** ** The resource monitor as a dictionary *)

Section MonitorKeys.

Implicit Types (mon : ResourceMonitor) (r : string) (now : float).

Lemma get_load_known r mon :
  is_Some (usage_log mon !! r) -> (get_load r mon).2 = mon.
Proof.
  intros [l Hl]. unfold get_load, defaultdict_getitem. rewrite Hl.
  by destruct mon.
Qed.

Lemma get_load_unknown r mon :
  usage_log mon !! r = None ->
  get_load r mon = (0, {| usage_log := <[r := []]> (usage_log mon) |}).
Proof. intros Hr. unfold get_load, defaultdict_getitem. by rewrite Hr. Qed.

Lemma log_usage_known r now mon : is_Some (usage_log (log_usage now r mon) !! r).
Proof.
  unfold log_usage, defaultdict_getitem.
  destruct (usage_log mon !! r); rewrite lookup_insert_eq; cbn [usage_log];
    rewrite lookup_insert_eq; eauto.
Qed.

Lemma set_resource_monitor_id (s : SessionState) :
  set_resource_monitor (resource_monitor s) s = s.
Proof. by destruct s. Qed.

(** [_make_decision] consults the monitor for the resource of the last
    event only; when that resource is a key of [usage_log] already, the
    monitor comes back as it was. *)
Lemma make_decision_monitor mon (user : TrialUser) (tenant : TenantConfig) :
  (∀ e r, last (events user) = Some e -> resource e = Some r ->
          Py.truthy (Some r) = true -> is_Some (usage_log mon !! r)) ->
  (_make_decision mon user tenant).2 = mon.
Proof.
  intros Hkey. unfold _make_decision.
  destruct (Py.ge (abuse_score user) (abuse_threshold tenant)).
  { by destruct (Py.lt (roi_score user) (-5)), (Py.gt (roi_score user) 5). }
  assert ((hot_resource mon user).2 = mon) as Hhot.
  { unfold hot_resource.
    destruct (last (events user)) as [e|] eqn:He; [|done].
    destruct (resource e) as [r|] eqn:Hr; [|done].
    destruct (Py.truthy (Some r)) eqn:Ht; [|done].
    pose proof (get_load_known r mon (Hkey e r eq_refl Hr Ht)) as Hload.
    by destruct (get_load r mon). }
  destruct (hot_resource mon user) as [[r|] mon']; cbn [snd] in Hhot; subst mon';
    [done|].
  by destruct (Py.gt (roi_score user) 10 && Py.lt (abuse_score user) 0.2).
Qed.

End MonitorKeys.

(** ** One successful call of [process_event] *)

Section ProcessEvent.

Implicit Types (m : Machine) (tid uid ety utype : string) (rid : option string).

Lemma returns_monitor_log_usage (r : string) m (Q : () -> Machine -> Prop) :
  Q () {| world := {| clock := clock (world m); ticks := S (ticks (world m));
                      rand := rand (world m); draws := draws (world m) |};
          session := set_resource_monitor
                       (log_usage (clock (world m) (ticks (world m))) r
                                  (resource_monitor (session m)))
                       (session m) |} ->
  returns (monitor_log_usage r) m Q.
Proof. intros HQ. by eexists _, _. Qed.

Lemma returns_monitor_get_load (r : string) m (Q : nat -> Machine -> Prop) :
  Q (get_load r (resource_monitor (session m))).1
    {| world := world m;
       session := set_resource_monitor
                    (get_load r (resource_monitor (session m))).2
                    (session m) |} ->
  returns (monitor_get_load r) m Q.
Proof.
  intros HQ. unfold returns, monitor_get_load, mbind, Run_bind, gets, modify,
    mret, Run_ret.
  destruct (get_load r (resource_monitor (session m))) as [n mon'].
  by eexists _, _.
Qed.

(** The cost and value derivation returns, and changes the session by
    the resource logging only. *)
Lemma simulate_cost_value_returns ety rid m :
  returns (simulate_cost_value ety rid) m (fun _ m' =>
    ∃ t_log, session m'
             = set_resource_monitor
                 (logged rid t_log (resource_monitor (session m))) (session m)).
Proof.
  unfold simulate_cost_value.
  apply returns_bind.
  assert (∀ (c : Run float) (Q : float -> Machine -> Prop) m0,
            (c = random_uniform 0.1 0.5 ∨ c = random_uniform 0.5 2
             ∨ (∃ x, c = mret x)) ->
            (∀ x m1, session m1 = session m0 -> Q x m1) -> returns c m0 Q)
    as Hdraw.
  { intros c Q m0 [->|[->|[x ->]]] HQ.
    - apply returns_random_uniform, HQ. done.
    - apply returns_random_uniform, HQ. done.
    - apply returns_ret, HQ. done. }
  apply Hdraw. { case_decide; eauto. }
  intros cost m1 Hm1. apply returns_bind.
  apply Hdraw. { case_decide; eauto. }
  intros value m2 Hm2. rewrite Hm1 in Hm2. clear Hm1 m1.
  apply returns_bind.
  destruct rid as [r|]; cbn [logged].
  - destruct (Py.truthy (Some r)).
    + apply returns_bind, returns_monitor_log_usage.
      apply returns_bind, returns_monitor_get_load.
      apply returns_ret, returns_ret.
      exists (clock (world m2) (ticks (world m2))).
      cbn [session]. rewrite Hm2.
      rewrite get_load_known by (cbn [set_resource_monitor resource_monitor];
                                 apply log_usage_known).
      by destruct (session m).
    + apply returns_ret, returns_ret. exists 0%float.
      by rewrite Hm2, set_resource_monitor_id.
  - apply returns_ret, returns_ret. exists 0%float.
    by rewrite Hm2, set_resource_monitor_id.
Qed.

End ProcessEvent.

Section ProcessEventCall.

Implicit Types (m : Machine) (tid uid ety utype : string) (rid : option string).

Ltac rsimpl :=
  cbn beta;
  cbn [session world users tenants resource_monitor stats set_users
       set_resource_monitor set_stats clock ticks rand draws].

Ltac rstep :=
  lazymatch goal with
  | |- returns (_ ≫= _) _ _ => apply returns_bind
  | |- returns (gets _) _ _ => apply returns_gets
  | |- returns (modify _) _ _ => apply returns_modify
  | |- returns time_time _ _ => apply returns_time_time
  | |- returns (update_user _ _) _ _ => apply returns_update_user
  | |- returns (mret _) _ _ => apply returns_ret
  end; rsimpl.

Lemma logged_known rid (r : string) now mon :
  rid = Some r -> Py.truthy (Some r) = true ->
  is_Some (usage_log (logged rid now mon) !! r).
Proof. intros -> Ht. cbn [logged]. rewrite Ht. apply log_usage_known. Qed.

Lemma process_event_registered tid uid ety rid utype m tenant :
  tenants (session m) !! tid = Some tenant ->
  returns (process_event tid uid ety rid utype) m (fun d m' =>
    ∃ (cost value t_log t_add t_calc : float) (rs : list string),
      let before :=
        default (TrialUser_init (clock (world m) (ticks (world m)))
                                (clock (world m) (S (ticks (world m))))
                                tid uid utype)
                (users (session m) !! uid) in
      let mon := logged rid t_log (resource_monitor (session m)) in
      let scored :=
        _calculate_scores t_calc
          (add_event t_add ety rid cost value before) tenant in
      (_make_decision mon scored tenant).1 = (d, rs)
      ∧ session m'
        = {| users := <[uid := set_decision d rs scored]> (users (session m));
             tenants := tenants (session m);
             resource_monitor := mon;
             stats := update_stats d cost value (stats (session m)) |}).
Proof.
  intros Htenant. unfold process_event.
  repeat rstep.
  assert (∀ cost value t_log t_add t_calc (u : TrialUser) d rs mon',
            _make_decision (logged rid t_log (resource_monitor (session m)))
              (_calculate_scores t_calc
                 (add_event t_add ety rid cost value u) tenant) tenant
            = (d, rs, mon') ->
            mon' = logged rid t_log (resource_monitor (session m))) as Hmon.
  { intros cost value t_log t_add t_calc u d rs mon' Hdec.
    apply (f_equal snd) in Hdec. cbn [snd] in Hdec. rewrite <- Hdec.
    apply make_decision_monitor. intros e r He Hr Ht.
    cbn [_calculate_scores events add_event] in He.
    rewrite last_snoc in He. injection He as <-. cbn [resource] in Hr.
    by apply logged_known. }
  destruct (users (session m) !! uid) as [u|] eqn:Hu.
  - rewrite decide_False by done. repeat rstep.
    eapply returns_dict_getitem; [exact Hu|]. repeat rstep.
    eapply returns_dict_getitem; [exact Htenant|]. repeat rstep.
    eapply returns_mono; [apply simulate_cost_value_returns|].
    intros [cost value] m2 [t_log Hm2]. rsimpl. repeat rstep.
    rewrite Hm2. rsimpl. rewrite Hu, !lookup_insert_eq, !insert_insert_eq.
    eapply returns_dict_getitem; [apply lookup_insert_eq|]. repeat rstep.
    destruct (_make_decision _ _ _) as [[d rs] mon'] eqn:Hdec.
    repeat rstep.
    exists cost, value, t_log, (clock (world m2) (ticks (world m2))),
      (clock (world m2) (S (ticks (world m2)))), rs.
    cbn [from_option id]. rewrite Hdec. split; [done|].
    apply Hmon in Hdec as ->.
    unfold set_stats, set_users, set_resource_monitor. rsimpl. f_equal.
    rewrite Hu. repeat (rewrite lookup_insert_eq, insert_insert_eq). done.
  - rewrite decide_True by done. repeat rstep.
    eapply returns_dict_getitem; [apply lookup_insert_eq|]. repeat rstep.
    eapply returns_dict_getitem; [exact Htenant|]. repeat rstep.
    eapply returns_mono; [apply simulate_cost_value_returns|].
    intros [cost value] m2 [t_log Hm2]. rsimpl. repeat rstep.
    rewrite Hm2. rsimpl. rewrite !lookup_insert_eq, !insert_insert_eq.
    eapply returns_dict_getitem; [apply lookup_insert_eq|]. repeat rstep.
    destruct (_make_decision _ _ _) as [[d rs] mon'] eqn:Hdec.
    repeat rstep.
    exists cost, value, t_log, (clock (world m2) (ticks (world m2))),
      (clock (world m2) (S (ticks (world m2)))), rs.
    cbn [from_option id]. rewrite Hdec. split; [done|].
    apply Hmon in Hdec as ->.
    unfold set_stats, set_users, set_resource_monitor. rsimpl. f_equal.
    repeat (rewrite lookup_insert_eq, insert_insert_eq). done.
Qed.

End ProcessEventCall.

Section ProcessEventEffects.

Implicit Types (m : Machine) (tid uid ety utype : string) (rid : option string).

(** The profile a call works on: the registered one, or a new one made
    from the next two clock readings. *)
Lemma process_event_unregistered tid uid ety rid utype m :
  tenants (session m) !! tid = None ->
  ∃ m', process_event tid uid ety rid utype m = (Raise (KeyError tid), m')
        ∧ session m'
          = set_users
              (fun us => match us !! uid with
                         | Some _ => us
                         | None =>
                             <[uid := TrialUser_init
                                        (clock (world m) (ticks (world m)))
                                        (clock (world m) (S (ticks (world m))))
                                        tid uid utype]> us
                         end) (session m).
Proof.
  intros Htenant.
  destruct (users (session m) !! uid) as [u|] eqn:Hu.
  - exists m. rewrite process_event_unknown_tenant_known_user by eauto.
    split; [done|]. unfold set_users. rewrite Hu. by destruct (session m).
  - eexists. split.
    + unfold process_event, mbind, Run_bind, gets, modify, time_time,
        dict_getitem, mret, Run_ret, raise.
      cbn [session world users tenants set_users clock ticks].
      rewrite decide_True by done.
      cbn [session world users tenants set_users clock ticks].
      rewrite lookup_insert_eq.
      cbn [session world users tenants set_users clock ticks].
      rewrite Htenant. reflexivity.
    + cbn [session]. unfold set_users. by rewrite Hu.
Qed.

(** Whatever the outcome, a call leaves the tenant registry and the
    profiles of the other users as they were. *)
Lemma process_event_frame tid uid ety rid utype m :
  let m' := (process_event tid uid ety rid utype m).2 in
  tenants (session m') = tenants (session m)
  ∧ ∀ other, other ≠ uid ->
             users (session m') !! other = users (session m) !! other.
Proof.
  cbv zeta. destruct (tenants (session m) !! tid) as [tenant|] eqn:Htenant.
  - destruct (process_event_registered tid uid ety rid utype m tenant Htenant)
      as (d & m' & -> & cost & value & t_log & t_add & t_calc & rs & _ & Hs).
    cbn [snd]. rewrite Hs. cbn [tenants users]. split; [done|].
    intros other Hne. by rewrite lookup_insert_ne.
  - destruct (process_event_unregistered tid uid ety rid utype m Htenant)
      as (m' & -> & Hs).
    cbn [snd]. rewrite Hs. unfold set_users. cbn [tenants users]. split; [done|].
    intros other Hne.
    destruct (users (session m) !! uid); [done|]. by rewrite lookup_insert_ne.
Qed.

End ProcessEventEffects.

(** ** What each decision means *)

Section DecisionRules.

Implicit Types (user : TrialUser) (tenant : TenantConfig) (mon : ResourceMonitor).

Lemma make_decision_set_decision mon user tenant d rs :
  _make_decision mon (set_decision d rs user) tenant
  = _make_decision mon user tenant.
Proof. reflexivity. Qed.

Ltac decision_cases mon user tenant :=
  unfold _make_decision;
  destruct (Py.ge (abuse_score user) (abuse_threshold tenant)) eqn:Hgate;
  [ destruct (Py.lt (roi_score user) (-5)) eqn:Hlow,
             (Py.gt (roi_score user) 5) eqn:Hhigh
  | destruct (hot_resource mon user) as [[r|] mon'] eqn:Hhot;
    [ | destruct (Py.gt (roi_score user) 10) eqn:Hroi,
                 (Py.lt (abuse_score user) 0.2) eqn:Hsafe ] ];
  cbn [fst snd andb].

Lemma make_decision_some_reason mon user tenant :
  (_make_decision mon user tenant).1.2 ≠ [].
Proof. decision_cases mon user tenant; done. Qed.

(** X9. Every decision comes with one or two reasons, two only for the
    critical block. *)
Theorem make_decision_reasons mon user tenant :
  let '(d, rs) := (_make_decision mon user tenant).1 in
  rs ≠ [] ∧ length rs ≤ 2
  ∧ (d = DECISION_ALLOW ↔ rs = ["Normal Behavior"])
  ∧ (d = DECISION_FLAG_SALES ↔ rs = ["High ROI User"]).
Proof.
  decision_cases mon user tenant;
    (split; [done|]); (split; [cbn; lia|]); split; split; try done;
    intros H; discriminate H.
Qed.

(** X10. BLOCK is a verdict of the abuse gate only: the decision is BLOCK
    exactly when the abuse score reaches the tenant's threshold and the
    ROI is below -5 or not above 5. *)
Theorem make_decision_block_iff mon user tenant :
  (_make_decision mon user tenant).1.1 = DECISION_BLOCK
  ↔ Py.ge (abuse_score user) (abuse_threshold tenant) = true
    ∧ (Py.lt (roi_score user) (-5) = true ∨ Py.gt (roi_score user) 5 = false).
Proof.
  decision_cases mon user tenant; split; try done; try (intros [? [?|?]]; done);
    try (intros _; split; [done|]; auto).
Qed.


(** X12. Resource drain: when the abuse gate is not met and the last
    recorded event names a resource whose load exceeds 100, the
    decision is THROTTLE with the resource named in the reason,
    whatever the scores. *)
Theorem make_decision_resource_drain mon user tenant (e : Event) (r : string) :
  Py.ge (abuse_score user) (abuse_threshold tenant) = false ->
  last (events user) = Some e ->
  resource e = Some r -> r ≠ "" ->
  100 < length (retained r mon) ->
  (_make_decision mon user tenant).1
  = (DECISION_THROTTLE, ["Resource " +:+ r +:+ " Overloaded"]).
Proof.
  intros Hgate He Hr Hne Hload. unfold _make_decision. rewrite Hgate.
  unfold hot_resource. rewrite He, Hr. cbn [Py.truthy].
  rewrite bool_decide_eq_true_2 by done.
  pose proof (get_load_count r mon) as Hcount.
  destruct (get_load r mon) as [load mon']. cbn [fst] in Hcount. subst load.
  by rewrite decide_True by done.
Qed.

End DecisionRules.

(** ** Effects of [process_event] *)

Section ProcessEventProperties.

Implicit Types (m : Machine) (tid uid ety utype : string) (rid : option string).

(** X1. [process_event] returns a decision exactly when the tenant is
    registered; otherwise it raises [KeyError] on the tenant id. *)
Theorem process_event_returns_iff_registered tid uid ety rid utype m :
  ((∃ d, (process_event tid uid ety rid utype m).1 = Return d)
   ↔ is_Some (tenants (session m) !! tid))
  ∧ ((process_event tid uid ety rid utype m).1 = Raise (KeyError tid)
     ↔ tenants (session m) !! tid = None).
Proof.
  destruct (tenants (session m) !! tid) as [tenant|] eqn:Htenant.
  - destruct (process_event_registered tid uid ety rid utype m tenant Htenant)
      as (d & m' & -> & _).
    cbn [fst]. split; split; eauto; done.
  - destruct (process_event_unregistered tid uid ety rid utype m Htenant)
      as (m' & -> & _).
    cbn [fst]. split; split; try done; intros [? ?]; discriminate.
Qed.

(** X2. On a registered tenant the returned decision is the one stored on
    the user's profile, together with its reasons (never empty), and it
    is the verdict of the decision policy on the stored profile, the
    tenant's policy and the monitor as the call leaves it. *)
Theorem process_event_stores_decision tid uid ety rid utype m tenant :
  tenants (session m) !! tid = Some tenant ->
  ∃ d u' m',
    process_event tid uid ety rid utype m = (Return d, m')
    ∧ users (session m') !! uid = Some u'
    ∧ current_decision u' = d
    ∧ reasons u' ≠ []
    ∧ (_make_decision (resource_monitor (session m')) u' tenant).1
      = (d, reasons u').
Proof.
  intros Htenant.
  destruct (process_event_registered tid uid ety rid utype m tenant Htenant)
    as (d & m' & Hrun & cost & value & t_log & t_add & t_calc & rs & Hdec & Hs).
  cbv zeta in Hdec, Hs. eexists d, _, m'. split; [exact Hrun|].
  rewrite Hs. cbn [users resource_monitor]. rewrite lookup_insert_eq.
  split; [done|]. split; [done|]. cbn [reasons set_decision].
  rewrite make_decision_set_decision, Hdec. split; [|done].
  pose proof (make_decision_some_reason
                (logged rid t_log (resource_monitor (session m)))
                (_calculate_scores t_calc
                   (add_event t_add ety rid cost value
                      (default (TrialUser_init (clock (world m) (ticks (world m)))
                                  (clock (world m) (S (ticks (world m))))
                                  tid uid utype)
                               (users (session m) !! uid))) tenant)
                tenant) as Hrs.
  by rewrite Hdec in Hrs.
Qed.

(** X3. A call for one user never touches the tenant registry nor the
    profile of any other user, whether it returns or raises. *)
Theorem process_event_leaves_others tid uid ety rid utype m (other : string) :
  other ≠ uid ->
  tenants (session (process_event tid uid ety rid utype m).2)
  = tenants (session m)
  ∧ users (session (process_event tid uid ety rid utype m).2) !! other
    = users (session m) !! other.
Proof.
  intros Hne.
  destruct (process_event_frame tid uid ety rid utype m) as [Ht Hu]. auto.
Qed.

(** X4. For a user who is registered already, the tenant id and the user
    type passed to the call are ignored: the profile keeps its tenant,
    its type, its id and its creation time, whether the call returns or
    raises. *)
Theorem process_event_keeps_identity tid uid ety rid utype m (u : TrialUser) :
  users (session m) !! uid = Some u ->
  ∃ u', users (session (process_event tid uid ety rid utype m).2) !! uid
        = Some u'
        ∧ tenant_id u' = tenant_id u
        ∧ user_id u' = user_id u
        ∧ user_type u' = user_type u
        ∧ created_at u' = created_at u.
Proof.
  intros Hu.
  destruct (tenants (session m) !! tid) as [tenant|] eqn:Htenant.
  - destruct (process_event_registered tid uid ety rid utype m tenant Htenant)
      as (d & m' & -> & cost & value & t_log & t_add & t_calc & rs & _ & Hs).
    cbn [snd]. rewrite Hs, Hu. cbn [users]. rewrite lookup_insert_eq.
    eexists. split; [done|]. done.
  - destruct (process_event_unregistered tid uid ety rid utype m Htenant)
      as (m' & -> & Hs).
    cbn [snd]. rewrite Hs. unfold set_users. cbn [users]. rewrite Hu.
    exists u. done.
Qed.

(** X5. The only change a call makes to the resource monitor is one
    [log_usage] of the event's resource, and only when the tenant is
    registered and the resource id is neither [None] nor empty. *)
Theorem process_event_monitor tid uid ety rid utype m :
  ∃ t_log,
    resource_monitor (session (process_event tid uid ety rid utype m).2)
    = match tenants (session m) !! tid with
      | Some _ => logged rid t_log (resource_monitor (session m))
      | None => resource_monitor (session m)
      end.
Proof.
  destruct (tenants (session m) !! tid) as [tenant|] eqn:Htenant.
  - destruct (process_event_registered tid uid ety rid utype m tenant Htenant)
      as (d & m' & -> & cost & value & t_log & t_add & t_calc & rs & _ & Hs).
    exists t_log. cbn [snd]. by rewrite Hs.
  - destruct (process_event_unregistered tid uid ety rid utype m Htenant)
      as (m' & -> & Hs).
    exists 0%float. cbn [snd]. by rewrite Hs.
Qed.

End ProcessEventProperties.

(** ** Request sequences *)

Section Serving.

Implicit Types (m : Machine) (rs : list Request).

Lemma process_event_counters (tid uid ety utype : string)
    (rid : option string) m :
  let '(out, m') := process_event tid uid ety rid utype m in
  total_events (stats (session m'))
  = (total_events (stats (session m)) + if returned out then 1 else 0)%Z
  ∧ blocked_events (stats (session m'))
    = (blocked_events (stats (session m))
       + if returned_block out then 1 else 0)%Z
  ∧ (returned out = true ↔ is_Some (tenants (session m) !! tid))
  ∧ tenants (session m') = tenants (session m).
Proof.
  destruct (tenants (session m) !! tid) as [tenant|] eqn:Htenant.
  - destruct (process_event_registered tid uid ety rid utype m tenant Htenant)
      as (d & m' & -> & cost & value & t_log & t_add & t_calc & rs & _ & Hs).
    rewrite Hs. cbn [stats tenants returned returned_block].
    destruct d; cbn [update_stats total_events blocked_events];
      repeat split; eauto; lia.
  - destruct (process_event_unregistered tid uid ety rid utype m Htenant)
      as (m' & -> & Hs).
    rewrite Hs. cbn [set_users stats tenants returned returned_block].
    repeat split; try lia; try done; intros [? ?]; done.
Qed.

Lemma serve_counters rs m :
  let '(outs, m') := serve rs m in
  total_events (stats (session m'))
  = (total_events (stats (session m))
     + Z.of_nat (length (List.filter returned outs)))%Z
  ∧ blocked_events (stats (session m'))
    = (blocked_events (stats (session m))
       + Z.of_nat (length (List.filter returned_block outs)))%Z
  ∧ Forall2 (fun r out =>
               returned out = true
               ↔ is_Some (tenants (session m) !! req_tenant r)) rs outs
  ∧ tenants (session m') = tenants (session m).
Proof.
  revert m. induction rs as [|r rs IH]; intros m.
  - cbn. repeat split; try lia. constructor.
  - cbn [serve].
    pose proof (process_event_counters (req_tenant r) (req_user r)
                  (req_event r) (req_hint r) (req_resource r) m) as Hcall.
    destruct (process_event _ _ _ _ _ m) as [out m1].
    destruct Hcall as (Htotal & Hblocked & Hret & Htenants).
    specialize (IH m1). destruct (serve rs m1) as [outs m2].
    destruct IH as (IHtotal & IHblocked & IHret & IHtenants).
    rewrite Htenants in IHret, IHtenants.
    split; [|split; [|split; [|done]]].
    + rewrite IHtotal, Htotal. cbn [List.filter].
      destruct (returned out); cbn [length]; lia.
    + rewrite IHblocked, Hblocked. cbn [List.filter].
      destruct (returned_block out); cbn [length]; lia.
    + by constructor.
Qed.

(** X6. Counters over a session.  On an engine started fresh, after any
    sequence of calls [total_events] is the number of calls that
    returned and [blocked_events] the number that returned BLOCK; so
    0 <= blocked_events <= total_events <= number of calls.  A call
    returns exactly when its tenant is registered, and the registry
    stays as initialised. *)
Theorem engine_counters (w : World) rs :
  let '(outs, m') := serve rs {| world := w; session := TrialGuardEngine_init |} in
  let st := stats (session m') in
  total_events st = Z.of_nat (length (List.filter returned outs))
  ∧ blocked_events st = Z.of_nat (length (List.filter returned_block outs))
  ∧ (0 <= blocked_events st <= total_events st)%Z
  ∧ (total_events st <= Z.of_nat (length rs))%Z
  ∧ Forall2 (fun r out =>
               returned out = true
               ↔ req_tenant r = "Tenant_A" ∨ req_tenant r = "Tenant_B") rs outs
  ∧ tenants (session m') = tenants TrialGuardEngine_init.
Proof.
  pose proof (serve_counters rs {| world := w; session := TrialGuardEngine_init |})
    as Hserve.
  destruct (serve rs _) as [outs m'].
  destruct Hserve as (Htotal & Hblocked & Hret & Htenants).
  cbn [session stats TrialGuardEngine_init total_events blocked_events]
    in Htotal, Hblocked.
  cbv zeta. rewrite Htotal, Hblocked, Z.add_0_l, Z.add_0_l.
  assert (length outs = length rs) as Hlen by (symmetry; eapply Forall2_length; done).
  assert (∀ f : Outcome DecisionKind -> bool,
            length (List.filter f outs) ≤ length outs) as Hle
    by (intros f; apply filter_length_le).
  assert (length (List.filter returned_block outs)
          ≤ length (List.filter returned outs)) as Hsub.
  { clear. induction outs as [|[[]|] outs IH]; cbn; lia. }
  pose proof (Hle returned).
  repeat split; try lia; [|done].
  eapply Forall2_impl; [exact Hret|].
  intros r out Hiff. rewrite Hiff. cbn [session tenants TrialGuardEngine_init].
  destruct (decide (req_tenant r = "Tenant_A")) as [->|HA].
  { rewrite lookup_insert_eq. split; eauto. }
  rewrite lookup_insert_ne by done.
  destruct (decide (req_tenant r = "Tenant_B")) as [->|HB].
  { rewrite lookup_insert_eq. split; eauto. }
  rewrite lookup_insert_ne by done. rewrite lookup_empty.
  split; [intros [? ?]; done|intros [?|?]; done].
Qed.

End Serving.

(** ** Profiles in the registry *)

Section Profiles.

Implicit Types (m : Machine) (u : TrialUser).

Lemma consistent_init (t_created t_active : float) (tid uid utype : string) :
  consistent_profile uid (TrialUser_init t_created t_active tid uid utype).
Proof. unfold consistent_profile. cbn. repeat split; try done; lia. Qed.

Lemma length_add_to_last (x : float) (l : list float) :
  length (Py.add_to_last x l) = length l.
Proof. unfold Py.add_to_last. destruct (last l); [apply length_insert|done]. Qed.

Lemma consistent_add_event key now (ety : string) (rid : option string)
    (cost value : float) u :
  consistent_profile key u ->
  consistent_profile key (add_event now ety rid cost value u).
Proof.
  intros (Hid & Hcount & Hseq & Hsessions & Hscore).
  unfold consistent_profile, add_event.
  cbn [user_id api_count events feature_sequence session_durations abuse_score].
  rewrite !length_app. cbn [length].
  split; [done|]. split; [lia|]. split; [|split; [|done]].
  - case_decide as Hfull; rewrite ?length_app in Hfull; cbn [length] in Hfull.
    + unfold Py.pop0. destruct (feature_sequence u) as [|x fs];
        cbn [app tail length] in *; rewrite ?length_app; cbn [length]; lia.
    + rewrite ?length_app. cbn [length]. lia.
  - destruct (Py.gt _ 300).
    + rewrite ?length_app. cbn [length]. lia.
    + destruct (session_durations u) as [|d ds] eqn:Hds; [cbn; lia|].
      rewrite length_add_to_last. lia.
Qed.

Lemma consistent_calculate_scores key now u (tenant : TenantConfig) :
  consistent_profile key u ->
  consistent_profile key (_calculate_scores now u tenant).
Proof.
  intros (Hid & Hcount & Hseq & Hsessions & _).
  repeat split; try done.
  all: apply in_unit_interval_values, abuse_score_values.
Qed.

Lemma consistent_set_decision key (d : DecisionKind) (rs : list string) u :
  consistent_profile key u -> consistent_profile key (set_decision d rs u).
Proof. done. Qed.

Lemma process_event_consistent (tid uid ety utype : string)
    (rid : option string) m :
  (∀ key u, users (session m) !! key = Some u -> consistent_profile key u) ->
  ∀ key u,
    users (session (process_event tid uid ety rid utype m).2) !! key = Some u ->
    consistent_profile key u.
Proof.
  intros Hinv key u.
  destruct (tenants (session m) !! tid) as [tenant|] eqn:Htenant.
  - destruct (process_event_registered tid uid ety rid utype m tenant Htenant)
      as (d & m' & -> & cost & value & t_log & t_add & t_calc & rs & _ & Hs).
    cbn [snd]. rewrite Hs. cbn [users].
    destruct (decide (key = uid)) as [->|Hne].
    + rewrite lookup_insert_eq. intros [= <-].
      apply consistent_set_decision, consistent_calculate_scores,
        consistent_add_event.
      destruct (users (session m) !! uid) as [u0|] eqn:Hu0; cbn [from_option id].
      * by apply Hinv.
      * apply consistent_init.
    + rewrite lookup_insert_ne by done. apply Hinv.
  - destruct (process_event_unregistered tid uid ety rid utype m Htenant)
      as (m' & -> & Hs).
    cbn [snd]. rewrite Hs. unfold set_users. cbn [users].
    destruct (users (session m) !! uid) as [u0|] eqn:Hu0; [apply Hinv|].
    destruct (decide (key = uid)) as [->|Hne].
    + rewrite lookup_insert_eq. intros [= <-]. apply consistent_init.
    + rewrite lookup_insert_ne by done. apply Hinv.
Qed.

(** X7. Registry invariant.  On an engine started fresh, after any
    sequence of calls (returning or raising), every profile in the user
    registry is stored under its own [user_id], its [api_count] is the
    length of its event log, its [feature_sequence] holds min(10, number
    of events) entries, it has no more sessions than events, and its
    abuse score lies in [0, 1]. *)
Theorem engine_profiles_consistent (w : World) (rs : list Request)
    (key : string) u :
  users (session (serve rs {| world := w; session := TrialGuardEngine_init |}).2)
    !! key = Some u ->
  consistent_profile key u.
Proof.
  assert (∀ rs m,
            (∀ key u, users (session m) !! key = Some u ->
                      consistent_profile key u) ->
            ∀ key u, users (session (serve rs m).2) !! key = Some u ->
                     consistent_profile key u) as Hgen.
  { clear. intros rs. induction rs as [|r rs IH]; intros m Hinv; [done|].
    cbn [serve].
    pose proof (process_event_consistent (req_tenant r) (req_user r)
                  (req_event r) (req_hint r) (req_resource r) m Hinv) as Hstep.
    destruct (process_event _ _ _ _ _ m) as [out m1]. cbn [snd] in Hstep.
    specialize (IH m1 Hstep).
    by destruct (serve rs m1) as [outs m2]. }
  apply Hgen. intros k u0. cbn [session users TrialGuardEngine_init].
  by rewrite lookup_empty.
Qed.

(** X8. A sales flag means a clean profile: when a call returns
    FLAG_SALES, none of the three abuse signals fired on the stored
    profile (its abuse score is 0) and its ROI exceeds 10. *)
Theorem process_event_flag_sales_clean (tid uid ety utype : string)
    (rid : option string) m :
  (process_event tid uid ety rid utype m).1 = Return DECISION_FLAG_SALES ->
  ∃ u, users (session (process_event tid uid ety rid utype m).2) !! uid = Some u
       ∧ current_decision u = DECISION_FLAG_SALES
       ∧ abuse_score u = 0%float
       ∧ Py.gt (roi_score u) 10 = true.
Proof.
  destruct (tenants (session m) !! tid) as [tenant|] eqn:Htenant.
  - destruct (process_event_registered tid uid ety rid utype m tenant Htenant)
      as (d & m' & -> & cost & value & t_log & t_add & t_calc & rs & Hdec & Hs).
    cbn [fst snd]. intros [= ->]. cbv zeta in Hdec, Hs.
    rewrite Hs. cbn [users]. rewrite lookup_insert_eq.
    eexists. split; [done|]. split; [done|].
    cbn [abuse_score roi_score set_decision].
    set (scored := _calculate_scores t_calc _ tenant) in *.
    assert ((_make_decision (logged rid t_log (resource_monitor (session m)))
               scored tenant).1.1 = DECISION_FLAG_SALES) as Hflag
      by (by rewrite Hdec).
    unfold _make_decision in Hflag.
    destruct (Py.ge (abuse_score scored) (abuse_threshold tenant)).
    { by destruct (Py.lt (roi_score scored) (-5)), (Py.gt (roi_score scored) 5). }
    destruct (hot_resource _ scored) as [[r|] mon']; [done|].
    destruct (Py.gt (roi_score scored) 10) eqn:Hroi; [|done].
    destruct (Py.lt (abuse_score scored) 0.2) eqn:Hsafe; [|done].
    split; [|done].
    pose proof (abuse_score_values t_calc
                  (add_event t_add ety rid cost value
                     (default (TrialUser_init (clock (world m) (ticks (world m)))
                                 (clock (world m) (S (ticks (world m))))
                                 tid uid utype)
                              (users (session m) !! uid))) tenant) as Hval.
    fold scored in Hval.
    rewrite !elem_of_cons, elem_of_nil in Hval.
    destruct Hval as [H|[H|[H|[H|[H|[H|[]]]]]]]; rewrite H in Hsafe |- *;
      first [reflexivity | vm_compute in Hsafe; discriminate].
  - destruct (process_event_unregistered tid uid ety rid utype m Htenant)
      as (m' & -> & _).
    cbn [fst]. discriminate.
Qed.

End Profiles.

(** ** The event log of a profile *)

Section EventLog.

Implicit Types (u : TrialUser) (cs : list UserCall).

(** X13. The event log is complete and in order: from the creation of a
    user on, after any sequence of calls the log holds one entry per
    [add_event] call, with the event types in arrival order,
    [api_count] is its length, and [feature_sequence] is a suffix of
    the logged types. *)
Theorem event_log_complete (t_created t_active : float)
    (tenant_name uid utype : string) cs :
  let u := run_calls cs (TrialUser_init t_created t_active tenant_name uid utype) in
  type <$> events u = event_types cs
  ∧ api_count u = Z.of_nat (length (event_types cs))
  ∧ feature_sequence u `suffix_of` (type <$> events u).
Proof.
  cbv zeta.
  assert (type <$> events (run_calls cs
            (TrialUser_init t_created t_active tenant_name uid utype))
          = event_types cs
          ∧ api_count (run_calls cs
              (TrialUser_init t_created t_active tenant_name uid utype))
            = Z.of_nat (length (event_types cs))) as [Hlog Hcount].
  { induction cs as [|c cs [IHlog IHcount]] using rev_ind; [done|].
    rewrite run_calls_snoc. unfold event_types. rewrite omap_app.
    fold (event_types cs).
    destruct c as [now ety rid cost value|now tenant];
      cbn [apply_call add_event _calculate_scores events api_count omap].
    - rewrite fmap_app, IHlog, IHcount, length_app. cbn. split; [done|lia].
    - rewrite app_nil_r. done. }
  split; [done|]. split; [done|].
  rewrite Hlog, feature_sequence_window by done.
  apply suffix_drop.
Qed.

(** X14. After at least one event, [last_active] is the time stamp of the
    last logged event; before any event it is the creation reading. *)
Theorem last_active_is_last_event (t_created t_active : float)
    (tenant_name uid utype : string) cs :
  let u := run_calls cs (TrialUser_init t_created t_active tenant_name uid utype) in
  last_active u = default t_active (timestamp <$> last (events u)).
Proof.
  cbv zeta. induction cs as [|c cs IH] using rev_ind; [done|].
  rewrite run_calls_snoc.
  destruct c as [now ety rid cost value|now tenant];
    cbn [apply_call add_event _calculate_scores events last_active].
  - by rewrite last_snoc.
  - exact IH.
Qed.

End EventLog.

(** ** The monitor's keys and loads *)

Section MonitorLoads.

Implicit Types (mon : ResourceMonitor) (r : string) (now : float).

(** X15. Reading loads is read-only: after any sequence of [get_load]
    calls, on known or unknown resource ids, every resource has the list
    and the load it had; and when the ids read are all keys of
    [usage_log] (as in [render_resource_monitor], which reads the load
    of each key) the monitor is left exactly as it was. *)
Theorem get_load_reads_only (rs : list string) mon :
  let mon' := run_monitor (CallGetLoad <$> rs) mon in
  (∀ r, retained r mon' = retained r mon
        ∧ (get_load r mon').1 = (get_load r mon).1)
  ∧ (Forall (fun r => is_Some (usage_log mon !! r)) rs -> mon' = mon).
Proof.
  cbv zeta. revert mon. induction rs as [|x rs IH]; intros mon; [done|].
  change (run_monitor (CallGetLoad <$> x :: rs) mon)
    with (run_monitor (CallGetLoad <$> rs) (get_load x mon).2).
  destruct (IH (get_load x mon).2) as [IHlists IHsame]. split.
  - intros r. destruct (IHlists r) as [Hlist Hload].
    rewrite !get_load_count in *. rewrite Hlist, get_load_retained. done.
  - intros [Hx Hrs]%Forall_cons.
    rewrite get_load_known in IHsame |- * by done. by apply IHsame.
Qed.

Lemma apply_monitor_call_keys mon (c : MonitorCall) :
  dom (usage_log (apply_monitor_call mon c))
  = dom (usage_log mon)
    ∪ {[match c with CallLogUsage _ r => r | CallGetLoad r => r end]}.
Proof.
  destruct c as [now r|r]; cbn [apply_monitor_call].
  - unfold log_usage, defaultdict_getitem.
    destruct (usage_log mon !! r) eqn:Hr; rewrite lookup_insert_eq;
      cbn [usage_log]; rewrite !dom_insert_L;
      apply elem_of_dom_2 in Hr || apply not_elem_of_dom in Hr; set_solver.
  - unfold get_load, defaultdict_getitem.
    destruct (usage_log mon !! r) eqn:Hr; cbn [snd usage_log].
    + apply elem_of_dom_2 in Hr. set_solver.
    + rewrite dom_insert_L. set_solver.
Qed.

(** X16. Keys persist: after any sequence of [log_usage] and [get_load]
    calls the keys of [usage_log] are the keys it had at the start
    together with every resource id named in a call. *)
Theorem monitor_keys (cs : list MonitorCall) mon :
  dom (usage_log (run_monitor cs mon))
  = dom (usage_log mon)
    ∪ list_to_set ((fun c => match c with
                             | CallLogUsage _ r => r
                             | CallGetLoad r => r
                             end) <$> cs).
Proof.
  induction cs as [|c cs IH] using rev_ind.
  - cbn. set_solver.
  - rewrite run_monitor_snoc, apply_monitor_call_keys, IH, fmap_app,
      list_to_set_app_L. cbn [fmap list_fmap list_to_set]. set_solver.
Qed.

(** X17. One [log_usage] raises the load of its resource by at most one:
    the retained list is a sublist of the old list followed by the new
    reading, in the same order, and the lists of the other resources
    are untouched. *)
Theorem log_usage_load_bound r now mon :
  retained r (log_usage now r mon) `sublist_of` retained r mon ++ [now]
  ∧ (get_load r (log_usage now r mon)).1 ≤ (get_load r mon).1 + 1
  ∧ ∀ other, other ≠ r ->
             retained other (log_usage now r mon) = retained other mon.
Proof.
  assert (∀ (f : float -> bool) l, List.filter f l `sublist_of` l) as Hsub.
  { intros f l. induction l as [|x l IH]; [done|]. cbn [List.filter].
    destruct (f x); [by apply sublist_skip|by apply sublist_cons]. }
  split; [|split].
  - rewrite log_usage_retained_eq. apply Hsub.
  - rewrite !get_load_count, log_usage_retained_eq.
    etrans; [apply sublist_length, Hsub|]. rewrite length_app. cbn. lia.
  - intros other Hne. by apply log_usage_retained_ne.
Qed.

End MonitorLoads.

Section FloatFacts.

Local Open Scope float_scope.

Lemma ltb_leb (x y : float) : (x <? y) = true -> (x <=? y) = true.
Proof.
  rewrite ltb_spec, leb_spec. unfold SFltb, SFleb.
  by destruct (SFcompare (Prim2SF x) (Prim2SF y)) as [[]|].
Qed.

(** A finite float minus itself is [+0]. *)
Lemma sub_diag_finite (x : float) : is_finite x = true -> x - x = 0.
Proof.
  unfold is_finite. intros Hfin. apply Prim2SF_inj. rewrite sub_spec.
  destruct (Prim2SF x) as [s|s| |s mx e]; try discriminate.
  - by destruct s.
  - unfold SF64sub, SFsub. cbv zeta. by rewrite Z.sub_diag.
Qed.

End FloatFacts.

Section OwnReading.

Implicit Types (mon : ResourceMonitor) (r : string) (now : float).

(** X18. A [log_usage] at a finite clock value counts itself: the new
    reading is the last retained entry, so the load of the resource is
    at least 1 right after the call. *)
Theorem log_usage_counts_itself r now mon :
  is_finite now = true ->
  last (retained r (log_usage now r mon)) = Some now
  ∧ 1 ≤ (get_load r (log_usage now r mon)).1.
Proof.
  intros Hfin.
  assert (retained r (log_usage now r mon)
          = List.filter (fun t => Py.lt (now - t) 60) (retained r mon) ++ [now])
    as Hret.
  { rewrite log_usage_retained_eq, List.filter_app. cbn [List.filter].
    unfold Py.lt at 2. by rewrite sub_diag_finite. }
  rewrite get_load_count, Hret, last_snoc, length_app. cbn [length].
  split; [done|lia].
Qed.

End OwnReading.

Section ProgressBar.

(** X19. The progress value shown for a user lies in [0, 1] for every ROI
    score, a NaN included (it is shown as 1). *)
Theorem chart_val_in_unit_interval (roi : float) :
  in_unit_interval (chart_val roi).
Proof.
  unfold chart_val, Py.max, Py.min, Py.gt, Py.lt, in_unit_interval. cbv zeta.
  destruct ((roi + 10) / 20 <? 1)%float eqn:Hlt1.
  - destruct (0 <? (roi + 10) / 20)%float eqn:Hgt0.
    + split; by apply ltb_leb.
    + split; reflexivity.
  - split; reflexivity.
Qed.

End ProgressBar.

(** ** The traffic simulation *)

Section Simulation.

Implicit Types (sm : SimMachine).

Lemma sim_returns_ret {A} (a : A) sm (Q : A -> SimMachine -> Prop) :
  Q a sm -> sim_returns (mret a) sm Q.
Proof. intros HQ. by exists a, sm. Qed.

Lemma sim_returns_bind {A B} (c : Sim A) (f : A -> Sim B) sm
    (Q : B -> SimMachine -> Prop) :
  sim_returns c sm (fun a sm1 => sim_returns (f a) sm1 Q) ->
  sim_returns (c ≫= f) sm Q.
Proof.
  intros (a & sm1 & Hc & b & sm2 & Hf & HQ). exists b, sm2. split; [|done].
  unfold mbind, Sim_bind. by rewrite Hc.
Qed.

Lemma sim_returns_lift {A} (c : Run A) sm (Q : A -> SimMachine -> Prop) :
  returns c (engine sm) (fun a m' =>
    Q a {| engine := m'; ints := ints sm; int_draws := int_draws sm |}) ->
  sim_returns (lift c) sm Q.
Proof.
  intros (a & m' & Hc & HQ). eexists _, _. split; [|exact HQ].
  unfold lift. by rewrite Hc.
Qed.

Lemma sim_returns_randint (a b : Z) sm (Q : Z -> SimMachine -> Prop) :
  (a <= b)%Z ->
  (∀ k, (a <= k <= b)%Z ->
        Q k {| engine := engine sm; ints := ints sm;
               int_draws := S (int_draws sm) |}) ->
  sim_returns (random_randint a b) sm Q.
Proof.
  intros Hab HQ. eexists _, _. split; [reflexivity|]. apply HQ.
  pose proof (Z.mod_pos_bound (ints sm (int_draws sm)) (b - a + 1)). lia.
Qed.

Lemma sim_returns_choice {A} (seq : list A) sm (Q : A -> SimMachine -> Prop) :
  seq ≠ [] ->
  (∀ x, x ∈ seq ->
        Q x {| engine := engine sm; ints := ints sm;
               int_draws := S (int_draws sm) |}) ->
  sim_returns (random_choice seq) sm Q.
Proof.
  intros Hne HQ. destruct seq as [|x seq]; [done|].
  eexists _, _. split; [reflexivity|]. apply HQ.
  apply list_elem_of_In, nth_In.
  pose proof (Z.mod_pos_bound (ints sm (int_draws sm))
                (Z.of_nat (length (x :: seq)))) as Hbound.
  cbn [length] in *. lia.
Qed.

Lemma simulated_refl (s : SessionState) : simulated s s 0.
Proof. unfold simulated. repeat split; try done; [lia|set_solver..]. Qed.

Lemma simulated_trans (s1 s2 s3 : SessionState) (a b : nat) :
  simulated s1 s2 a -> simulated s2 s3 b -> simulated s1 s3 (a + b).
Proof.
  intros (Ht1 & Hn1 & Hu1 & Hr1) (Ht2 & Hn2 & Hu2 & Hr2). unfold simulated.
  split; [congruence|]. split; [lia|]. split; set_solver.
Qed.

Lemma simulated_user_id (base : string) (k : Z) :
  base ∈ ["msg_user"; "bad_actor"; "vip_lead"] -> (1 <= k <= 5)%Z ->
  base +:+ "_" +:+ str_of_int k ∈ simulated_users.
Proof.
  intros Hbase Hk.
  assert (k ∈ [1; 2; 3; 4; 5]%Z) as Hk'.
  { assert (k = 1 ∨ k = 2 ∨ k = 3 ∨ k = 4 ∨ k = 5)%Z
      as [->|[->|[->|[->| ->]]]] by lia; set_solver. }
  unfold simulated_users. apply list_elem_of_bind. exists base. split; [|done].
  apply list_elem_of_bind. exists k. split; [|done]. set_solver.
Qed.

Lemma log_usage_keys (now : float) (r : string) (mon : ResourceMonitor) :
  dom (usage_log (log_usage now r mon)) = dom (usage_log mon) ∪ {[r]}.
Proof. apply (apply_monitor_call_keys mon (CallLogUsage now r)). Qed.

(** One call of [process_event] made by the simulation. *)
Lemma simulated_call (tid uid ety res utype : string) (m : Machine) :
  is_Some (tenants (session m) !! tid) ->
  uid ∈ simulated_users -> res ∈ resources_pool ->
  returns (process_event tid uid ety (Some res) utype) m (fun _ m' =>
    simulated (session m) (session m') 1).
Proof.
  intros [tenant Htenant] Huid Hres.
  eapply returns_mono; [by apply process_event_registered|].
  intros d m' (cost & value & t_log & t_add & t_calc & rs & _ & Hs).
  cbv zeta in Hs. rewrite Hs. unfold simulated.
  cbn [tenants stats users resource_monitor logged].
  split; [done|]. split; [by destruct d|]. split.
  - rewrite dom_insert. set_solver.
  - destruct (Py.truthy (Some res)); [|set_solver].
    rewrite log_usage_keys. set_solver.
Qed.

End Simulation.

Section SimulationRuns.

Implicit Types (sm : SimMachine).

Ltac sstep :=
  lazymatch goal with
  | |- sim_returns (_ ≫= _) _ _ => apply sim_returns_bind
  | |- sim_returns (mret _) _ _ => apply sim_returns_ret
  end; cbn beta; cbn [engine ints int_draws].

(** The event type and the resource of a simulated event: no call of
    the engine, and a resource of the pool. *)
Lemma pick_event_returns (u_type : string) sm
    (Q : string * string -> SimMachine -> Prop) :
  (∀ e r sm', engine sm' = engine sm -> r ∈ resources_pool -> Q (e, r) sm') ->
  sim_returns
    (if decide (u_type = "ABUSIVE")
     then mret ("API_CALL", "EXPORT_WORKER")
     else if decide (u_type = "HIGH_VALUE") then
       e ← random_choice ["CHECKOUT_ATTEMPT"; "VIEW_DASHBOARD"];
       mret (e, "API_GATEWAY")
     else
       e ← random_choice event_types_pool;
       r ← random_choice resources_pool;
       mret (e, r)) sm Q.
Proof.
  intros HQ. repeat case_decide.
  - sstep. apply HQ; [reflexivity|]. unfold resources_pool. set_solver.
  - sstep. apply sim_returns_choice; [done|]. intros e _. sstep.
    apply HQ; [reflexivity|]. unfold resources_pool. set_solver.
  - sstep. apply sim_returns_choice; [done|]. intros e _. sstep.
    apply sim_returns_choice; [done|]. intros r Hr. sstep.
    by apply HQ.
Qed.

(** One simulated event on a registry that holds every candidate tenant:
    the step returns, after one call of [process_event]. *)
Lemma simulate_event_returns (tenant_ids : list string) sm :
  tenant_ids ≠ [] ->
  (∀ t, t ∈ tenant_ids -> is_Some (tenants (session (engine sm)) !! t)) ->
  sim_returns (simulate_event tenant_ids) sm (fun _ sm' =>
    simulated (session (engine sm)) (session (engine sm')) 1).
Proof.
  intros Hne Hreg. unfold simulate_event.
  sstep. apply sim_returns_choice; [done|]. intros tid Htid.
  sstep. apply sim_returns_lift. eexists _, _. split; [reflexivity|].
  cbn [engine ints int_draws session world].
  set (rand := rand (world (engine sm)) (draws (world (engine sm)))).
  assert (∃ u_type u_base,
            (if Py.lt rand 0.7 then ("NORMAL", "msg_user")
             else if Py.lt rand 0.90 then ("ABUSIVE", "bad_actor")
             else ("HIGH_VALUE", "vip_lead")) = (u_type, u_base)
            ∧ u_base ∈ ["msg_user"; "bad_actor"; "vip_lead"])
    as (u_type & u_base & -> & Hbase).
  { destruct (Py.lt rand 0.7); [|destruct (Py.lt rand 0.90)];
      eexists _, _; (split; [reflexivity|]); set_solver. }
  sstep. apply sim_returns_randint; [lia|]. intros k Hk.
  pose proof (simulated_user_id u_base k Hbase Hk) as Huid.
  sstep.
  apply pick_event_returns. intros e r sm' Hengine Hr. sstep.
  apply sim_returns_lift. rewrite Hengine.
  eapply returns_mono.
  { apply (simulated_call tid _ e r u_type); [|exact Huid|exact Hr].
    cbn [session]. by apply Hreg. }
  intros d m' Hsim. sstep. cbn [engine session] in Hsim. exact Hsim.
Qed.

Lemma simulate_events_returns (n : nat) (tenant_ids logs : list string) sm :
  tenant_ids ≠ [] ->
  (∀ t, t ∈ tenant_ids -> is_Some (tenants (session (engine sm)) !! t)) ->
  sim_returns (simulate_events n tenant_ids logs) sm (fun out sm' =>
    length out = length logs + n
    ∧ simulated (session (engine sm)) (session (engine sm')) n).
Proof.
  intros Hne. revert logs sm.
  induction n as [|n IH]; intros logs sm Hreg; cbn [simulate_events].
  - sstep. split; [lia|apply simulated_refl].
  - sstep.
    destruct (simulate_event_returns tenant_ids sm Hne Hreg)
      as (line & sm1 & Hrun & Hsim1).
    exists line, sm1. split; [exact Hrun|].
    assert (∀ t, t ∈ tenant_ids ->
                 is_Some (tenants (session (engine sm1)) !! t)) as Hreg1.
    { intros t Ht. destruct Hsim1 as [-> _]. by apply Hreg. }
    destruct (IH (logs ++ [line]) sm1 Hreg1) as (out & sm2 & Hrest & Hlen & Hsim2).
    exists out, sm2. split; [exact Hrest|].
    rewrite length_app in Hlen. cbn [length] in Hlen. split; [lia|].
    apply (simulated_trans _ _ _ 1 n Hsim1 Hsim2).
Qed.

(** X20. With at least one tenant registered, [run_simulation] never
    fails: it returns between 5 and 20 log lines, one per simulated
    event, and every simulated event is processed ([total_events] grows
    by the number of lines).  It leaves the tenant registry alone,
    registers users among the fifteen simulated ids only and touches
    the four simulated resources only. *)
Theorem run_simulation_returns sm :
  tenants (session (engine sm)) ≠ ∅ ->
  ∃ logs sm',
    run_simulation sm = (SimReturn logs, sm')
    ∧ 5 ≤ length logs ≤ 20
    ∧ simulated (session (engine sm)) (session (engine sm')) (length logs).
Proof.
  intros Hne.
  assert (sim_returns run_simulation sm (fun logs sm' =>
            5 ≤ length logs ≤ 20
            ∧ simulated (session (engine sm)) (session (engine sm'))
                        (length logs))) as (logs & sm' & Hrun & Hpost).
  { unfold run_simulation.
    sstep. apply sim_returns_randint; [lia|]. intros k Hk.
    sstep. apply sim_returns_lift. apply returns_gets.
    cbn [engine ints int_draws].
    destruct (simulate_events_returns (Z.to_nat k)
                (map_to_list (tenants (session (engine sm)))).*1 []
                {| engine := engine sm; ints := ints sm;
                   int_draws := S (int_draws sm) |})
      as (out & sm2 & Hrest & Hlen & Hsim).
    - intros Hnil. apply fmap_nil_inv, map_to_list_empty_iff in Hnil. done.
    - intros t [[t' c] [-> Hin]]%list_elem_of_fmap.
      apply elem_of_map_to_list in Hin. cbn [engine fst]. eauto.
    - exists out, sm2. split; [exact Hrest|]. cbn [length] in Hlen.
      cbn [engine] in Hsim. rewrite Hlen. split; [lia|exact Hsim]. }
  eauto.
Qed.

(** X21. With an empty tenant registry [run_simulation] raises
    [IndexError] at its first event, before any call of the engine: the
    session is as it was. *)
Theorem run_simulation_no_tenant sm :
  tenants (session (engine sm)) = ∅ ->
  ∃ sm', run_simulation sm = (SimRaise IndexError, sm')
         ∧ session (engine sm') = session (engine sm).
Proof.
  intros Hempty.
  pose proof (Z.mod_pos_bound (ints sm (int_draws sm)) (20 - 5 + 1)) as Hk.
  cbv [run_simulation mbind Sim_bind random_randint randbelow mret Sim_ret
       lift gets].
  cbn [engine ints int_draws]. rewrite Hempty, map_to_list_empty. cbn [fmap list_fmap].
  destruct (Z.to_nat (5 + ints sm (int_draws sm) `mod` (20 - 5 + 1)))
    as [|n] eqn:Hn; [lia|].
  cbn [simulate_events]. unfold simulate_event, mbind, Sim_bind, random_choice,
    sim_raise. eauto.
Qed.

End SimulationRuns.

(** ** Instances of the properties above *)

Section Witnesses.

Lemma make_decision_resource_drain_witness :
  (_make_decision hot_monitor exporting_user (TenantConfig_init "Tenant_A")).1
  = (DECISION_THROTTLE, ["Resource EXPORT_WORKER Overloaded"]).
Proof.
  apply (make_decision_resource_drain hot_monitor exporting_user
           (TenantConfig_init "Tenant_A")
           {| timestamp := 10; type := "EXPORT_DATA";
              resource := Some "EXPORT_WORKER" |} "EXPORT_WORKER").
  - reflexivity.
  - reflexivity.
  - reflexivity.
  - discriminate.
  - vm_compute. lia.
Defined.

Lemma process_event_stores_decision_witness :
  ∃ d u' m',
    process_event "Tenant_A" "u1" "LOGIN" None "NORMAL" (fresh_machine 0.5)
    = (Return d, m')
    ∧ users (session m') !! "u1" = Some u'
    ∧ current_decision u' = d
    ∧ reasons u' ≠ []
    ∧ (_make_decision (resource_monitor (session m')) u'
                      (TenantConfig_init "Tenant_A")).1
      = (d, reasons u').
Proof.
  apply (process_event_stores_decision "Tenant_A" "u1" "LOGIN" None "NORMAL"
           (fresh_machine 0.5) (TenantConfig_init "Tenant_A")).
  reflexivity.
Defined.

Lemma process_event_leaves_others_witness :
  tenants (session (process_event "Tenant_B" "u2" "API_CALL" (Some "API_GATEWAY")
                      "ABUSIVE" second_machine).2)
  = tenants (session second_machine)
  ∧ users (session (process_event "Tenant_B" "u2" "API_CALL"
                      (Some "API_GATEWAY") "ABUSIVE" second_machine).2) !! "u1"
    = users (session second_machine) !! "u1".
Proof.
  apply (process_event_leaves_others "Tenant_B" "u2" "API_CALL"
           (Some "API_GATEWAY") "ABUSIVE" second_machine "u1").
  discriminate.
Defined.

Lemma process_event_keeps_identity_witness :
  ∃ u', users (session (process_event "Tenant_B" "u1" "API_CALL" None "ABUSIVE"
                          second_machine).2) !! "u1" = Some u'
        ∧ tenant_id u' = "Tenant_A"
        ∧ user_id u' = "u1"
        ∧ user_type u' = "NORMAL"
        ∧ created_at u' = 1000%float.
Proof.
  destruct (users (session second_machine) !! "u1") as [u|] eqn:Hu;
    [|vm_compute in Hu; discriminate].
  destruct (process_event_keeps_identity "Tenant_B" "u1" "API_CALL" None
              "ABUSIVE" second_machine u Hu) as (u' & Hu' & Ht & Hi & Hty & Hc).
  vm_compute in Hu. injection Hu as <-.
  exists u'. cbn in Ht, Hi, Hty, Hc. auto.
Defined.

Lemma engine_profiles_consistent_witness :
  ∃ u, users (session (serve vip_requests
                         {| world := steady_world 0.9;
                            session := TrialGuardEngine_init |}).2)
         !! "vip_lead_1" = Some u
       ∧ consistent_profile "vip_lead_1" u.
Proof.
  destruct (users (session (serve vip_requests
                              {| world := steady_world 0.9;
                                 session := TrialGuardEngine_init |}).2)
              !! "vip_lead_1") as [u|] eqn:Hu; [|vm_compute in Hu; discriminate].
  exists u. split; [reflexivity|].
  exact (engine_profiles_consistent (steady_world 0.9) vip_requests
           "vip_lead_1" u Hu).
Defined.

Lemma process_event_flag_sales_clean_witness :
  ∃ u, users (session (process_event "Tenant_A" "vip_lead_1" "CHECKOUT_ATTEMPT"
                         (Some "API_GATEWAY") "HIGH_VALUE" vip_machine).2)
         !! "vip_lead_1" = Some u
       ∧ current_decision u = DECISION_FLAG_SALES
       ∧ abuse_score u = 0%float
       ∧ Py.gt (roi_score u) 10 = true.
Proof.
  apply (process_event_flag_sales_clean "Tenant_A" "vip_lead_1"
           "CHECKOUT_ATTEMPT" "HIGH_VALUE" (Some "API_GATEWAY") vip_machine).
  vm_compute. reflexivity.
Defined.

Lemma get_load_reads_only_witness :
  run_monitor (CallGetLoad <$> ["EXPORT_WORKER"; "EXPORT_WORKER"]) hot_monitor
  = hot_monitor.
Proof.
  apply (proj2 (get_load_reads_only ["EXPORT_WORKER"; "EXPORT_WORKER"]
                  hot_monitor)).
  repeat constructor; vm_compute; eauto.
Defined.

Lemma log_usage_load_bound_witness :
  retained "EXPORT_WORKER" (log_usage 80 "API_GATEWAY" hot_monitor)
  = retained "EXPORT_WORKER" hot_monitor.
Proof.
  apply (proj2 (proj2 (log_usage_load_bound "API_GATEWAY" 80 hot_monitor))).
  discriminate.
Defined.

Lemma log_usage_counts_itself_witness :
  last (retained "EXPORT_WORKER" (log_usage 80 "EXPORT_WORKER" hot_monitor))
  = Some 80%float
  ∧ 1 ≤ (get_load "EXPORT_WORKER"
           (log_usage 80 "EXPORT_WORKER" hot_monitor)).1.
Proof.
  apply (log_usage_counts_itself "EXPORT_WORKER" 80 hot_monitor).
  reflexivity.
Defined.

Lemma run_simulation_returns_witness :
  ∃ logs sm',
    run_simulation demo_sim = (SimReturn logs, sm')
    ∧ 5 ≤ length logs ≤ 20
    ∧ simulated (session (engine demo_sim)) (session (engine sm')) (length logs).
Proof.
  apply (run_simulation_returns demo_sim).
  intros H. apply (f_equal (fun ts => ts !! "Tenant_A")) in H.
  vm_compute in H. discriminate.
Defined.

Lemma run_simulation_no_tenant_witness :
  ∃ sm', run_simulation no_tenant_sim = (SimRaise IndexError, sm')
         ∧ session (engine sm') = session (engine no_tenant_sim).
Proof. apply (run_simulation_no_tenant no_tenant_sim). reflexivity. Defined.

End Witnesses.
